(** * Stosh: a shallow embedding of [stosh.py]

    The Python module wraps a compiled Stan model (a shared library) behind
    a [CompiledModel] object and a [compile] function.  This development
    embeds the module as state-passing Rocq functions over an explicit world
    (file system, native state, log of boundary crossings) and proves the
    behavioural properties of the handle lifecycle, the parameter
    marshalling and the artifact resolution.

    Conventions.
    - A Python [str] is represented by its UTF-8 encoding, a Rocq [string]
      (a sequence of bytes); [bytes] values are [string]s too.  Under this
      representation [s.encode('utf-8')] is the identity and
      [b.decode('utf-8')] is the identity on well-formed input and raises
      [UnicodeDecodeError] otherwise.
    - A resolved [pathlib.Path] is the list of its components below the
      root: [/a/b/c] is [["a"; "b"; "c"]].
    - Exceptions are values; a computation returns [Ok v] or [Raise e]
      together with the state it leaves behind. *)

From Stdlib Require Import ZArith List String Ascii Bool Lia.
From Stdlib Require Import Numbers.DecimalString Numbers.DecimalZ.
From stdpp Require Import base option list strings gmap.

Import ListNotations.
Local Open Scope string_scope.
Local Open Scope Z_scope.

(** ** Strings and bytes *)

Module Str.

(** The line feed, written ["\n"] in the source. *)
Definition nl : string := String (ascii_of_nat 10) EmptyString.

(** [sep.join(xs)] *)
Fixpoint join (sep : string) (xs : list string) : string :=
  match xs with
  | [] => ""
  | [x] => x
  | x :: rest => x ++ sep ++ join sep rest
  end.

(** [s.rfind(c)] for a one-character needle: index of its last occurrence. *)
Fixpoint rfind (c : ascii) (s : string) : option nat :=
  match s with
  | EmptyString => None
  | String a rest =>
      match rfind c rest with
      | Some i => Some (S i)
      | None => if Ascii.eqb a c then Some O else None
      end
  end.

(** [needle in s] *)
Fixpoint contains (needle s : string) : bool :=
  String.prefix needle s ||
  match s with
  | EmptyString => false
  | String _ rest => contains needle rest
  end.

(** The bytes of a C string: everything before the first NUL. *)
Fixpoint c_string (b : string) : string :=
  match b with
  | EmptyString => EmptyString
  | String a rest => if Ascii.eqb a zero then EmptyString else String a (c_string rest)
  end.

(** [str(n)] for a Python [int]. *)
Definition of_Z (n : Z) : string := NilZero.string_of_int (Z.to_int n).

End Str.

(** ** UTF-8 *)

Module Utf8.

Definition cont (b : nat) : bool := (Nat.leb 128 b && Nat.leb b 191)%bool.

(** The strict decoder, as a scan for the first ill-formed sequence.  The
    result is [None] on well-formed input and otherwise the start and end
    positions and the reason that [UnicodeDecodeError] reports.  The
    accepted sequences are those of the Unicode Standard, table 3-7. *)
Fixpoint scan (pos : nat) (bs : list nat) : option (nat * nat * string) :=
  let bad_start := Some (pos, S pos, "invalid start byte") in
  let bad_cont k := Some (pos, (pos + k)%nat, "invalid continuation byte") in
  let truncated := Some (pos, (pos + List.length bs)%nat, "unexpected end of data") in
  match bs with
  | [] => None
  | ch :: r1 =>
      if Nat.ltb ch 128 then scan (S pos) r1
      else if Nat.ltb ch 224 then
        if Nat.ltb ch 194 then bad_start
        else match r1 with
             | [] => truncated
             | ch2 :: r2 => if cont ch2 then scan (pos + 2)%nat r2 else bad_cont 1%nat
             end
      else if Nat.ltb ch 240 then
        match r1 with
        | [] => truncated
        | ch2 :: r2 =>
            if negb (cont ch2) || (if Nat.ltb ch2 160 then Nat.eqb ch 224 else Nat.eqb ch 237)
            then bad_cont 1%nat
            else match r2 with
                 | [] => truncated
                 | ch3 :: r3 => if cont ch3 then scan (pos + 3)%nat r3 else bad_cont 2%nat
                 end
        end
      else if Nat.ltb ch 245 then
        match r1 with
        | [] => truncated
        | ch2 :: r2 =>
            if negb (cont ch2) || (if Nat.ltb ch2 144 then Nat.eqb ch 240 else Nat.eqb ch 244)
            then bad_cont 1%nat
            else match r2 with
                 | [] => truncated
                 | ch3 :: r3 =>
                     if negb (cont ch3) then bad_cont 2%nat
                     else match r3 with
                          | [] => truncated
                          | ch4 :: r4 => if cont ch4 then scan (pos + 4)%nat r4 else bad_cont 3%nat
                          end
                 end
        end
      else bad_start
  end%bool.

Definition bytes_of (b : string) : list nat := List.map nat_of_ascii (list_ascii_of_string b).

Definition hex_digit (n : nat) : string :=
  String.substring n 1 "0123456789abcdef".

Definition hex2 (n : nat) : string :=
  hex_digit (Nat.div n 16) ++ hex_digit (Nat.modulo n 16).

Definition of_nat (n : nat) : string := NilZero.string_of_uint (Nat.to_uint n).

(** [str(e)] of the [UnicodeDecodeError] for an ill-formed sequence. *)
Definition error_text (bs : list nat) (err : nat * nat * string) : string :=
  let '(start, stop, reason) := err in
  if Nat.eqb (stop - start) 1
  then "'utf-8' codec can't decode byte 0x" ++ hex2 (List.nth start bs O)
       ++ " in position " ++ of_nat start ++ ": " ++ reason
  else "'utf-8' codec can't decode bytes in position " ++ of_nat start
       ++ "-" ++ of_nat (stop - 1) ++ ": " ++ reason.

(** [b.decode('utf-8')]: the text, or the message of the
    [UnicodeDecodeError] it raises. *)
Definition decode (b : string) : string + string :=
  match scan O (bytes_of b) with
  | None => inl b
  | Some err => inr (error_text (bytes_of b) err)
  end.

(** [s.encode('utf-8')] *)
Definition encode (s : string) : string := s.

End Utf8.

(** ** ctypes buffers *)

Module Ctypes.

(** [ctypes.create_string_buffer(n)] gives [n] zero bytes; the capacity the
    source uses for every out-buffer. *)
Definition buffer_capacity : nat := 1024.

(** [buf.value] after the native side wrote [written] at the start of a
    zero-initialised buffer of [cap] bytes: the bytes before the first NUL,
    never more than [cap] of them. *)
Definition value (cap : nat) (written : string) : string :=
  Str.c_string (String.substring 0 cap written).

(** [ctypes.c_uint(n)]: no overflow check, the value is reduced modulo 2^32. *)
Definition c_uint (n : Z) : Z := n mod 2 ^ 32.

(** A [c_void_p] result: [None] for the null pointer, the address otherwise. *)
Definition void_p_result (p : Z) : option Z :=
  if p =? 0 then None else Some p.

End Ctypes.

(** ** Floats

    A Python [float] is an IEEE-754 binary64 value.  Finite values are kept
    as sign, integer significand and binary exponent, so that every
    operation below is exact integer arithmetic. *)

Module Float.

Inductive float64 : Type :=
  | Nan
  | Inf (neg : bool)
  | Fin (neg : bool) (m : Z) (e : Z).
(* [Fin neg m e] is (-1)^neg * m * 2^e with 0 <= m < 2^53 and
   -1074 <= e <= 971, and 2^52 <= m unless e = -1074. *)

Definition emin : Z := -1074.
Definition emax : Z := 971.

Definition pow2 (k : Z) : Z := 2 ^ Z.max k 0.
Definition pow10 (k : Z) : Z := 10 ^ Z.max k 0.

(** Round [n / d] (with [0 <= n], [0 < d]) to the nearest integer, ties to even. *)
Definition div_half_even (n d : Z) : Z :=
  let q := n / d in
  let r := n mod d in
  match 2 * r ?= d with
  | Lt => q
  | Gt => q + 1
  | Eq => if Z.even q then q else q + 1
  end.

(** The binary64 value nearest to [n / d], ties to even: how the
    interpreter reads a decimal literal.  [0 < d]. *)
Definition of_ratio (n d : Z) : float64 :=
  let neg := n <? 0 in
  let a := Z.abs n in
  if a =? 0 then Fin false 0 emin
  else
    (* first guess of the exponent, then a correction by one *)
    let e0 := Z.max emin (Z.log2 a - Z.log2 d - 53) in
    let e1 := if a * pow2 (- e0) <? d * pow2 e0 * 2 ^ 53 then e0 else e0 + 1 in
    let e2 := if a * pow2 (- e1) <? d * pow2 e1 * 2 ^ 53 then e1 else e1 + 1 in
    let m := div_half_even (a * pow2 (- e2)) (d * pow2 e2) in
    let '(m', e') := if m =? 2 ^ 53 then (2 ^ 52, e2 + 1) else (m, e2) in
    if emax <? e' then Inf neg else Fin neg m' e'.

(** The value of the literal [digits]e[exp10], e.g. [of_decimal 9 (-1)] for
    [0.9]. *)
Definition of_decimal (digits exp10 : Z) : float64 :=
  of_ratio (digits * pow10 exp10) (pow10 (- exp10)).

(** *** Shortest round-trip digits

    [shortest m e] is the decimal significand [D] and exponent [j] with
    the fewest digits such that [D * 10^j] reads back as [m * 2^e]; among
    those the nearest one, ties to the even [D].  Quantities are compared
    in units of [2^(e-2)]: the value is [4m], the rounding interval is
    [[4m - lo, 4m + 2]], closed exactly when [m] is even. *)

Section Shortest.
Variables (m e : Z).

Let lo_margin : Z := if (m =? 2 ^ 52) && (emin <? e) then 1 else 2.
(* the unit 2^(e-2) as the fraction un / ud of two integers *)
Let un : Z := pow2 (e - 2).
Let ud : Z := pow2 (2 - e).

(** [D * 10^j] against [L] units. *)
Definition cmp_units (D j L : Z) : comparison :=
  (D * pow10 j * ud) ?= (L * un * pow10 (- j)).

Definition in_interval (D j : Z) : bool :=
  let closed := Z.even m in
  (0 <? D) &&
  match cmp_units D j (4 * m - lo_margin) with
  | Gt => true | Eq => closed | Lt => false
  end &&
  match cmp_units D j (4 * m + 2) with
  | Lt => true | Eq => closed | Gt => false
  end.

(** The candidate at scale [10^j], if one lies in the interval. *)
Definition candidate (j : Z) : option Z :=
  let num := 4 * m * un * pow10 (- j) in
  let den := ud * pow10 j in
  let fl := num / den in
  let r := num mod den in
  let ce := if r =? 0 then fl else fl + 1 in
  match in_interval fl j, in_interval ce j with
  | true, true =>
      match 2 * r ?= den with
      | Lt => Some fl
      | Gt => Some ce
      | Eq => Some (if Z.even fl then fl else ce)
      end
  | true, false => Some fl
  | false, true => Some ce
  | false, false => None
  end.

Fixpoint search (fuel : nat) (j : Z) : Z * Z :=
  match candidate j with
  | Some D => (D, j)
  | None =>
      match fuel with
      | O => (4 * m * un, -1076)   (* not reached: m * 2^e is a multiple of 10^-1074 *)
      | S fuel' => search fuel' (j - 1)
      end
  end.

(** An upper bound on the decimal exponent of the leading digit:
    [m * 2^e < 2^l] and [1233 / 4096 < log10 2]. *)
Definition start : Z :=
  let l := Z.log2 m + e + 1 in (l * 1233) / 4096 + 2.

Definition shortest : Z * Z := search 1400 start.
End Shortest.

Definition digits_of (D : Z) : string := NilZero.string_of_uint (N.to_uint (Z.to_N D)).

Fixpoint zeros (n : nat) : string :=
  match n with O => "" | S n' => String "0" (zeros n') end.

(** [repr(x)], which is also [str(x)]: the shortest digits, in positional
    notation when the decimal point position [decpt] satisfies
    [-4 < decpt <= 16] and in exponent notation otherwise. *)
Definition repr (x : float64) : string :=
  match x with
  | Nan => "nan"
  | Inf neg => if neg then "-inf" else "inf"
  | Fin neg m e =>
      let sign := if neg then "-" else "" in
      if m =? 0 then sign ++ "0.0"
      else
        let '(D, j) := shortest m e in
        let ds := digits_of D in
        let nd := Z.of_nat (String.length ds) in
        let decpt := nd + j in
        if (decpt <=? -4) || (16 <? decpt) then
          let ex := decpt - 1 in
          let mant := match ds with
                      | String d EmptyString => ds
                      | String d rest => String d ("." ++ rest)
                      | EmptyString => ds
                      end in
          let exd := digits_of (Z.abs ex) in
          sign ++ mant ++ "e" ++ (if ex <? 0 then "-" else "+")
               ++ (if Z.abs ex <? 10 then "0" else "") ++ exd
        else if decpt <=? 0 then
          sign ++ "0." ++ zeros (Z.to_nat (- decpt)) ++ ds
        else if decpt <? nd then
          sign ++ String.substring 0 (Z.to_nat decpt) ds ++ "."
               ++ String.substring (Z.to_nat decpt) (Z.to_nat (nd - decpt)) ds
        else
          sign ++ ds ++ zeros (Z.to_nat (decpt - nd)) ++ ".0"
  end.

End Float.

(** ** Python values, dictionaries and exceptions *)

(** The scalars a caller passes as sampling options. *)
Inductive PyValue : Type :=
  | VBool (b : bool)
  | VInt (n : Z)
  | VFloat (x : Float.float64)
  | VStr (s : string).

(** [str(value)] *)
Definition py_str (value : PyValue) : string :=
  match value with
  | VBool b => if b then "True" else "False"
  | VInt n => Str.of_Z n
  | VFloat x => Float.repr x
  | VStr s => s
  end.

(** [isinstance(value, bool)] *)
Definition is_bool (value : PyValue) : bool :=
  match value with VBool _ => true | _ => false end.

(** Truth value of a scalar, as [if value] tests it. *)
Definition truthy (value : PyValue) : bool :=
  match value with
  | VBool b => b
  | VInt n => negb (n =? 0)
  | VFloat (Float.Fin _ m _) => negb (m =? 0)
  | VFloat _ => true
  | VStr s => negb (String.eqb s "")
  end.

(** A [dict] with string keys keeps its items in insertion order and holds
    each key once. *)
Module Dict.

Definition t (V : Type) : Type := list (string * V).

(** [d[k] = v]: an existing key keeps its position and takes the new value,
    a new key goes to the end. *)
Fixpoint setitem {V} (k : string) (v : V) (d : t V) : t V :=
  match d with
  | [] => [(k, v)]
  | (k', v') :: rest =>
      if String.eqb k' k then (k', v) :: rest else (k', v') :: setitem k v rest
  end.

(** [{key: f(value) for key, value in d.items()}] *)
Definition comprehension {V W} (f : V -> W) (d : t V) : t W :=
  fold_left (fun acc kv => setitem (fst kv) (f (snd kv)) acc) d [].

Definition keys {V} (d : t V) : list string := List.map fst d.
Definition values {V} (d : t V) : list V := List.map snd d.

(** The invariant of a [dict]: no key occurs twice. *)
Definition wf {V} (d : t V) : Prop := List.NoDup (keys d).

End Dict.

(** The data argument of [load_data]: [Union[str, Dict[str, Any], None]]. *)
Inductive Data : Type :=
  | DataNone
  | DataPath (path : string)
  | DataDict (d : Dict.t PyValue).

(** Exception classes that occur in the module, and the class test of an
    [except] clause. *)
Inductive ExnClass : Type :=
  | StoshError
  | OSError
  | FileNotFoundError
  | AttributeError
  | UnicodeDecodeError
  | OtherException.

(** An exception: its class and its text [str(e)]. *)
Record Exn : Type := mkExn { exn_class : ExnClass; exn_str : string }.

(** [issubclass(c, handler)]: every class here derives from [Exception]
    ([OtherException] stands for it), [FileNotFoundError] from [OSError]. *)
Definition catches (handler c : ExnClass) : bool :=
  match handler, c with
  | OtherException, _ => true
  | StoshError, StoshError => true
  | OSError, (OSError | FileNotFoundError) => true
  | FileNotFoundError, FileNotFoundError => true
  | AttributeError, AttributeError => true
  | UnicodeDecodeError, UnicodeDecodeError => true
  | _, _ => false
  end.

Inductive Result (A : Type) : Type :=
  | Ok (a : A)
  | Raise (e : Exn).
Arguments Ok {A} a.
Arguments Raise {A} e.

(** ** The state-and-exception monad *)

Definition M (S A : Type) : Type := S -> Result A * S.

Definition ret {S A} (a : A) : M S A := fun s => (Ok a, s).

Definition bind {S A B} (c : M S A) (k : A -> M S B) : M S B :=
  fun s =>
    match c s with
    | (Ok a, s') => k a s'
    | (Raise e, s') => (Raise e, s')
    end.

Definition raise {S A} (cls : ExnClass) (msg : string) : M S A :=
  fun s => (Raise (mkExn cls msg), s).

Definition reraise {S A} (e : Exn) : M S A := fun s => (Raise e, s).

Definition get {S} : M S S := fun s => (Ok s, s).

Definition modify {S} (f : S -> S) : M S unit := fun s => (Ok tt, f s).

(** [try: body except c1 as e: h1(e) except c2 as e: h2(e) ...]: the first
    clause whose class matches handles the exception; an exception raised
    by a handler is not offered to the later clauses.  The state changes
    made by [body] before it raised are kept. *)
Definition try_except {S A} (body : M S A) (clauses : list (ExnClass * (Exn -> M S A))) : M S A :=
  fun s =>
    match body s with
    | (Ok a, s') => (Ok a, s')
    | (Raise e, s') =>
        match List.find (fun cl => catches (fst cl) (exn_class e)) clauses with
        | Some cl => snd cl e s'
        | None => (Raise e, s')
        end
    end.

Declare Scope monad_scope.
Delimit Scope monad_scope with monad.
Notation "x <- c ;; k" := (bind c (fun x => k))
  (at level 100, c at next level, right associativity) : monad_scope.
Notation "c ;; k" := (bind c (fun _ => k))
  (at level 100, right associativity) : monad_scope.
Local Open Scope monad_scope.

(** [b.decode('utf-8')] inside a computation. *)
Definition decode_utf8 {S} (b : string) : M S string :=
  match Utf8.decode b with
  | inl s => ret s
  | inr msg => raise UnicodeDecodeError msg
  end.

(** ** Paths *)

Module Path.

(** An absolute, resolved path: its components below the root. *)
Definition t : Type := list string.

(** [str(p)] for an absolute path. *)
Definition to_str (p : t) : string := "/" ++ Str.join "/" p.

(** [str(p)] for a relative path; the empty relative path prints as a dot. *)
Definition rel_to_str (p : t) : string :=
  match p with [] => "." | _ => Str.join "/" p end.

(** [p.name] *)
Definition name (p : t) : string := List.last p "".

(** [p.parent] (the root and the empty relative path are their own parent) *)
Definition parent (p : t) : t := List.removelast p.

(** [p / child] for a one-component [child] *)
Definition child (p : t) (c : string) : t := (p ++ [c])%list.

(** The index of the dot that starts the suffix of a file name: the last
    dot, unless it is the first or the last character (the rule of Python
    3.8 to 3.12, the versions the package declares). *)
Definition suffix_index (nm : string) : option nat :=
  match Str.rfind "." nm with
  | Some i => if (Nat.ltb 0 i && Nat.ltb i (String.length nm - 1))%bool then Some i else None
  | None => None
  end.

(** [p.suffix] *)
Definition suffix (p : t) : string :=
  let nm := name p in
  match suffix_index nm with
  | Some i => String.substring i (String.length nm - i) nm
  | None => ""
  end.

(** [p.stem] *)
Definition stem (p : t) : string :=
  let nm := name p in
  match suffix_index nm with
  | Some i => String.substring 0 i nm
  | None => nm
  end.

(** [p.relative_to(base)]: the components of [p] below [base]; [None] stands
    for the [ValueError] raised when [p] is not inside [base]. *)
Fixpoint relative_to (p base : t) {struct base} : option t :=
  match base with
  | [] => Some p
  | b :: base' =>
      match p with
      | [] => None
      | c :: p' => if String.eqb c b then relative_to p' base' else None
      end
  end.

End Path.

(** ** The world outside the module *)

(** Every crossing of the module's boundary is logged, in order. *)
Inductive Event : Type :=
  | Print (line : string)
  | RunProcess (cmd : list string) (cwd : Path.t)
  | LoadLibrary (so_path : string)
  | CallLoadModel (data : string) (seed : Z) (err_cap : nat) (result : Z)
  | CallRunSamplers (handle : Z) (keys values : option (list (option string)))
      (count : Z) (out_cap err_cap : nat) (result : Z)
  | CallFreeModel (handle : Z)
  | CallGetModelName (handle : Z).

(** The file system as the module observes it: the existing paths and their
    modification times ([st_mtime], in units fine enough to be integral). *)
Abbreviation FS := (gmap (list string) Z).

Section Stosh.

(** The state of the native side (the model instances it has allocated,
    its random number generators, the files it has written). *)
Context {N : Type}.

(** A loaded shared library: the C API of the compiled model.  Buffers are
    passed by capacity and come back as the bytes written into them; a
    [char**] argument is [None] for a null pointer. *)
Record NativeLib : Type := {
  (** [None] when the symbol is exported; otherwise the text of the
      [AttributeError] raised on access *)
  symbol_error : string -> option string;
  stosh_load_model : string -> Z -> nat -> N -> (Z * string) * N;
  stosh_run_samplers :
    Z -> option (list (option string)) -> option (list (option string)) -> Z ->
    nat -> nat -> N -> (Z * string * string) * N;
  stosh_free_model : Z -> N -> N;
  stosh_get_model_name : Z -> N -> option string * N
}.

(** The world: the files [compile] looks at (sources, makefiles,
    artifacts), the native state (to which the output files of the sampler
    belong), and the log. *)
Record World : Type := {
  fs : FS;
  native : N;
  log : list Event
}.

Inductive RunResult : Type :=
  | RunRaises (e : Exn)
  | Completed (returncode : Z) (stdout stderr : string).

(** The process environment and the operating system services [compile]
    relies on. *)
Record OS : Type := {
  (** [os.environ.get('STAN_ROOT')] *)
  environ_STAN_ROOT : option string;
  (** [Path(s).resolve()] *)
  resolve : string -> Path.t;
  (** [Path(__file__).parent.resolve()] *)
  python_dir : Path.t;
  (** [Path.cwd()] *)
  getcwd : Path.t;
  (** [subprocess.run(cmd, cwd=dir, capture_output=True, text=True,
      check=False)]: the outcome and the file system the process leaves *)
  subprocess_run : list string -> Path.t -> FS -> RunResult * FS;
  (** [ctypes.CDLL(path)]: the [OSError] text or the library *)
  CDLL : string -> FS -> string + NativeLib
}.

(** The attributes of a [CompiledModel] object once its library is loaded. *)
Record CompiledModel : Type := {
  _so_path : string;
  _lib : NativeLib;
  _model_handle : option Z
}.

(** What a method sees: its object and the world. *)
Record Frame : Type := { self : CompiledModel; world : World }.

Definition Method (A : Type) : Type := M Frame A.

Definition emit {S} (put : list Event -> S -> S) (ev : Event) : M S unit :=
  modify (put [ev]).

Definition world_log (evs : list Event) (w : World) : World :=
  {| fs := fs w; native := native w; log := log w ++ evs |}.

Definition frame_log (evs : list Event) (f : Frame) : Frame :=
  {| self := self f; world := world_log evs (world f) |}.

(** [print(line)] *)
Definition print (line : string) : M World unit := emit world_log (Print line).

(** [self._model_handle = h] *)
Definition set_model_handle (h : option Z) : Method unit :=
  modify (fun f =>
    {| self := {| _so_path := _so_path (self f); _lib := _lib (self f); _model_handle := h |};
       world := world f |}).

Definition get_self : Method CompiledModel := fun f => (Ok (self f), f).

(** Truth value of the handle attribute: [None] and [0] are false. *)
Definition handle_truthy (h : option Z) : bool :=
  match h with
  | Some p => negb (p =? 0)
  | None => false
  end.

(** *** Calls through the native boundary *)

Definition native_step {A} (step : N -> A * N) (ev : A -> Event) : Method A :=
  fun f =>
    let w := world f in
    let '(a, n') := step (native w) in
    (Ok a, {| self := self f;
              world := {| fs := fs w; native := n'; log := log w ++ [ev a] |} |}).

Definition call_free_model (h : Z) : Method unit :=
  lib <- (s <- get_self ;; ret (_lib s)) ;;
  native_step (fun n => (tt, stosh_free_model lib h n)) (fun _ => CallFreeModel h).

Definition call_load_model (data : string) (seed : Z) (cap : nat) : Method (Z * string) :=
  lib <- (s <- get_self ;; ret (_lib s)) ;;
  native_step (stosh_load_model lib data seed cap)
              (fun r => CallLoadModel data seed cap (fst r)).

Definition call_run_samplers (h : Z) (keys values : option (list (option string)))
    (count : Z) (out_cap err_cap : nat) : Method (Z * string * string) :=
  lib <- (s <- get_self ;; ret (_lib s)) ;;
  native_step (stosh_run_samplers lib h keys values count out_cap err_cap)
              (fun r => CallRunSamplers h keys values count out_cap err_cap (fst (fst r))).

Definition call_get_model_name (h : Z) : Method (option string) :=
  lib <- (s <- get_self ;; ret (_lib s)) ;;
  native_step (stosh_get_model_name lib h) (fun _ => CallGetModelName h).

(** ** [CompiledModel] *)

(** [_setup_function_signatures]: the three required entry points are
    looked up in this order; a missing one raises [AttributeError].  The
    optional [stosh_get_model_name] is only probed with [hasattr]. *)
Definition _setup_function_signatures {S} (lib : NativeLib) : M S unit :=
  let getattr (sym : string) : M S unit :=
    match symbol_error lib sym with
    | None => ret tt
    | Some msg => raise AttributeError msg
    end in
  getattr "stosh_load_model" ;;
  getattr "stosh_run_samplers" ;;
  getattr "stosh_free_model".

(** [hasattr(self._lib, 'stosh_get_model_name')] *)
Definition has_get_model_name (lib : NativeLib) : bool :=
  match symbol_error lib "stosh_get_model_name" with None => true | Some _ => false end.

(** [_load_library]: an [OSError] from the loader becomes a [StoshError]. *)
Definition _load_library (os : OS) (so_path : string) : M World NativeLib :=
  try_except
    (emit world_log (LoadLibrary so_path) ;;
     w <- get ;;
     match CDLL os so_path (fs w) with
     | inl msg => raise OSError msg
     | inr lib => _setup_function_signatures lib ;; ret lib
     end)
    [(OSError, fun e => raise StoshError ("Failed to load compiled model: " ++ exn_str e))].

(** [CompiledModel(so_path)] *)
Definition CompiledModel_init (os : OS) (so_path : string) : M World CompiledModel :=
  lib <- _load_library os so_path ;;
  ret {| _so_path := so_path; _lib := lib; _model_handle := None |}.

(** [load_data(data, seed)] *)
Definition load_data (data : Data) (seed : Z) : Method unit :=
  s <- get_self ;;
  match _model_handle s with
  | Some h =>
      (* Free existing model before loading new data *)
      call_free_model h ;;
      set_model_handle None
  | None => ret tt
  end ;;
  match data with
  | DataDict _ =>
      raise StoshError "Dictionary data not yet supported - please provide JSON file path"
  | _ =>
      let data_str := match data with DataPath p => p | _ => "" end in
      r <- call_load_model (Utf8.encode data_str) (Ctypes.c_uint seed) Ctypes.buffer_capacity ;;
      set_model_handle (Ctypes.void_p_result (fst r)) ;;
      s' <- get_self ;;
      if negb (handle_truthy (_model_handle s')) then
        text <- decode_utf8 (Ctypes.value Ctypes.buffer_capacity (snd r)) ;;
        raise StoshError ("Failed to load data: " ++ text)
      else ret tt
  end.

(** [_value_to_string(value)] *)
Definition _value_to_string (value : PyValue) : string :=
  if is_bool value then (if truthy value then "true" else "false")
  else py_str value.

(** [for i, x in enumerate(xs)] *)
Definition enumerate {A} (xs : list A) : list (nat * A) :=
  combine (seq 0 (List.length xs)) xs.

(** [(ctypes.c_char_p * n)()]: [n] null pointers. *)
Definition c_char_p_array (n : nat) : list (option string) := replicate n None.

(** [_kwargs_to_c_arrays(kwargs)] *)
Definition _kwargs_to_c_arrays (kwargs : Dict.t PyValue)
  : option (list (option string)) * option (list (option string)) :=
  match kwargs with
  | [] => (None, None)
  | _ =>
      let string_kwargs := Dict.comprehension _value_to_string kwargs in
      let keys := c_char_p_array (List.length string_kwargs) in
      let values := c_char_p_array (List.length string_kwargs) in
      let '(keys, values) :=
        fold_left
          (fun arrays item =>
             let '(i, (key, value)) := item in
             (<[i := Some (Utf8.encode key)]> (fst arrays),
              <[i := Some (Utf8.encode value)]> (snd arrays)))
          (enumerate string_kwargs) (keys, values) in
      (Some keys, Some values)
  end.

(** [hmc_nuts], whose keyword arguments arrive as the dict [kwargs] *)
Definition hmc_nuts (kwargs : Dict.t PyValue) : Method (Dict.t string) :=
  s <- get_self ;;
  match _model_handle s with
  | None => raise StoshError "No data loaded. Call load_data() first."
  | Some h =>
      let '(keys, values) := _kwargs_to_c_arrays kwargs in
      r <- call_run_samplers h keys values (Z.of_nat (List.length kwargs))
             Ctypes.buffer_capacity Ctypes.buffer_capacity ;;
      let '(result, output_dir, error_msg) := r in
      if negb (result =? 0) then
        text <- decode_utf8 (Ctypes.value Ctypes.buffer_capacity error_msg) ;;
        raise StoshError ("Sampling failed: " ++ text)
      else
        dir <- decode_utf8 (Ctypes.value Ctypes.buffer_capacity output_dir) ;;
        ret [("output_dir", dir)]
  end.

(** The [name] property. *)
Definition name : Method (option string) :=
  s <- get_self ;;
  match _model_handle s with
  | Some h =>
      if handle_truthy (Some h) && has_get_model_name (_lib s) then
        name_ptr <- call_get_model_name h ;;
        match name_ptr with
        | Some b => if negb (String.eqb b "") then text <- decode_utf8 b ;; ret (Some text) else ret None
        | None => ret None
        end
      else ret None
  | None => ret None
  end.

(** [__exit__]: leaving a [with] block releases the handle. *)
Definition __exit__ : Method unit :=
  s <- get_self ;;
  match _model_handle s with
  | Some h =>
      if handle_truthy (Some h) then call_free_model h ;; set_model_handle None
      else ret tt
  | None => ret tt
  end.

(** [__del__]: the finalizer releases the handle and leaves the attribute. *)
Definition __del__ : Method unit :=
  s <- get_self ;;
  match _model_handle s with
  | Some h => if handle_truthy (Some h) then call_free_model h else ret tt
  | None => ret tt
  end.

(** Running a method on an object. *)
Definition call {A} (m : Method A) (obj : CompiledModel) (w : World)
  : Result A * CompiledModel * World :=
  let '(r, f) := m {| self := obj; world := w |} in (r, self f, world f).

(** ** [compile] *)

(** [p.exists()] *)
Definition exists_ (fsys : FS) (p : Path.t) : bool :=
  match fsys !! p with Some _ => true | None => false end.

(** [a.stat().st_mtime > b.stat().st_mtime], both files existing. *)
Definition newer (fsys : FS) (a b : Path.t) : bool :=
  match fsys !! a, fsys !! b with
  | Some ta, Some tb => tb <? ta
  | _, _ => false
  end.

(** The name of the artifact built from a model called [model_name]. *)
Definition artifact_name (model_name : string) : string := model_name ++ "_model.so".

(** The directory holding the makefile: [STAN_ROOT] when set, otherwise the
    parent of the package directory. *)
Definition find_makefile_dir (os : OS) : Path.t :=
  match environ_STAN_ROOT os with
  | Some root => resolve os root
  | None => Path.parent (python_dir os)
  end.

(** The target handed to make, and the warning printed when a fallback is
    taken: the artifact relative to the makefile directory; failing that,
    relative to the current directory; failing that, its bare name. *)
Definition make_target (makefile_dir cwd stan_path : Path.t) : string * option string :=
  let model_name := Path.stem stan_path in
  match Path.relative_to stan_path makefile_dir with
  | Some relative_stan_path =>
      let target_path := Path.child (Path.parent relative_stan_path) (artifact_name model_name) in
      (Path.rel_to_str target_path, None)
  | None =>
      (* .stan file is not under the makefile directory *)
      match Path.relative_to stan_path cwd with
      | Some relative_to_cwd =>
          let target_path := Path.child (Path.parent relative_to_cwd) (artifact_name model_name) in
          let target := Path.rel_to_str target_path in
          (target, Some ("Warning: .stan file is outside makefile directory. Using target: " ++ target))
      | None =>
          (* Fall back to just the model name *)
          let target := artifact_name model_name in
          (target, Some ("Warning: Using fallback target: " ++ target))
      end
  end.

(** [subprocess.run(cmd, cwd=dir, ...)] *)
Definition run (os : OS) (cmd : list string) (dir : Path.t) : M World (Z * string * string) :=
  fun w =>
    let '(r, fs') := subprocess_run os cmd dir (fs w) in
    let w' := {| fs := fs'; native := native w; log := log w ++ [RunProcess cmd dir] |} in
    match r with
    | RunRaises e => (Raise e, w')
    | Completed rc out err => (Ok (rc, out, err), w')
    end.

(** [compile(stan_file, force)] *)
Definition compile (os : OS) (stan_file : string) (force : bool) : M World CompiledModel :=
  let stan_path := resolve os stan_file in
  w0 <- get ;;
  if negb (exists_ (fs w0) stan_path) then
    raise StoshError ("Stan file does not exist: " ++ stan_file)
  else if negb (String.eqb (Path.suffix stan_path) ".stan") then
    raise StoshError ("File must have .stan extension: " ++ stan_file)
  else
    let makefile_dir := find_makefile_dir os in
    let makefile_path := Path.child makefile_dir "makefile" in
    if negb (exists_ (fs w0) makefile_path) then
      raise StoshError ("Makefile not found at: " ++ Path.to_str makefile_path)
    else
      let model_name := Path.stem stan_path in
      let so_path := Path.child (Path.parent stan_path) (artifact_name model_name) in
      if negb force && exists_ (fs w0) so_path && newer (fs w0) so_path stan_path then
        print ("Using existing compiled model: " ++ Path.to_str so_path) ;;
        CompiledModel_init os (Path.to_str so_path)
      else
        print ("Compiling Stan model: " ++ stan_file) ;;
        print ("Using makefile directory: " ++ Path.to_str makefile_dir) ;;
        let '(make_target, warning) := make_target makefile_dir (getcwd os) stan_path in
        match warning with Some line => print line | None => ret tt end ;;
        try_except
            (let cmd := ["make"; make_target] in
              print ("Running: " ++ Str.join " " cmd ++ " (from " ++ Path.to_str makefile_dir ++ ")") ;;
              result <- run os cmd makefile_dir ;;
              let '(returncode, stdout, stderr) := result in
              if negb (returncode =? 0) then
                raise StoshError
                  ("Compilation failed:" ++ Str.nl
                   ++ "Command: " ++ Str.join " " cmd ++ Str.nl
                   ++ "Working directory: " ++ Path.to_str makefile_dir ++ Str.nl
                   ++ "STDOUT:" ++ Str.nl ++ stdout ++ Str.nl
                   ++ "STDERR:" ++ Str.nl ++ stderr)
              else
                w1 <- get ;;
                if negb (exists_ (fs w1) so_path) then
                  raise StoshError
                    ("Compilation succeeded but output file not found: " ++ Path.to_str so_path)
                else
                  print ("Compilation successful: " ++ Path.to_str so_path) ;;
                  CompiledModel_init os (Path.to_str so_path))
          [(FileNotFoundError,
            fun _ => raise StoshError
              "Make command not found. Ensure GNU make is installed and in PATH.");
           (OtherException,
            fun e => raise StoshError ("Compilation error: " ++ exn_str e))].

End Stosh.

(** ** Observations on the log *)

Definition is_run_process (ev : Event) : bool :=
  match ev with RunProcess _ _ => true | _ => false end.

Definition is_free (ev : Event) : bool :=
  match ev with CallFreeModel _ => true | _ => false end.

(** The handles that are live after a sequence of events, starting from the
    live handles [acc]: a non-null result of [load_model] becomes live and
    [free_model] ends the life of its argument. *)
Fixpoint live_after (evs : list Event) (acc : list Z) : list Z :=
  match evs with
  | [] => acc
  | CallLoadModel _ _ _ p :: rest =>
      live_after rest (if p =? 0 then acc else p :: acc)
  | CallFreeModel h :: rest =>
      live_after rest (List.remove Z.eq_dec h acc)
  | _ :: rest => live_after rest acc
  end.

Definition live (evs : list Event) : list Z := live_after evs [].

(** The handles a session holds: none or one. *)
Definition held `{N : Type} (obj : @CompiledModel N) : list Z :=
  match _model_handle obj with Some h => [h] | None => [] end.

(** The two states of a session. *)
Definition StateEmpty `{N : Type} (obj : @CompiledModel N) : Prop := _model_handle obj = None.
Definition StateLoaded `{N : Type} (obj : @CompiledModel N) : Prop := exists h, _model_handle obj = Some h.

(** The native state in which [load_data] calls [load_model]: any held
    handle has been passed to [free_model] first. *)
Definition released `{N : Type} (obj : @CompiledModel N) (w : @World N) : N :=
  match _model_handle obj with
  | Some h => stosh_free_model (_lib obj) h (native w)
  | None => native w
  end.

(** The errors of the session operations. *)
Definition NoDataLoaded : Exn := mkExn StoshError "No data loaded. Call load_data() first.".
Definition UnsupportedInput : Exn :=
  mkExn StoshError "Dictionary data not yet supported - please provide JSON file path".
Definition DataLoadFailed (native_text : string) : Exn :=
  mkExn StoshError ("Failed to load data: " ++ native_text).

(** [with_handle obj h] is [obj] after [self._model_handle = h]. *)
Definition with_handle `{N : Type} (obj : @CompiledModel N) (h : option Z) : @CompiledModel N :=
  {| _so_path := _so_path obj; _lib := _lib obj; _model_handle := h |}.

(** ** A stub boundary

    A native side that only counts: the state is the number of models it
    has allocated so far, handles are [1000 + k], and loading the path
    ["noseed.json"] fails with the text [seed required]. *)

Module Stub.

Definition nul : string := String zero EmptyString.

Definition lib : @NativeLib nat := {|
  symbol_error := fun _ => None;
  stosh_load_model := fun data _ _ n =>
    if String.eqb data "noseed.json"
    then ((0, "seed required" ++ nul), n)
    else ((1000 + Z.of_nat n, ""), S n);
  stosh_run_samplers := fun _ _ _ _ _ _ n => ((0, "/tmp/out" ++ nul, ""), n);
  stosh_free_model := fun _ n => n;
  stosh_get_model_name := fun _ n => (Some "bernoulli", n)
|}.

Definition fresh : @CompiledModel nat :=
  {| _so_path := "/stan/examples/bernoulli_model.so"; _lib := lib; _model_handle := None |}.

Definition loaded : @CompiledModel nat := with_handle fresh (Some 1000).

Definition w0 : @World nat := {| fs := ∅; native := 0%nat; log := [] |}.

(** The world after [fresh.load_data("bernoulli.data.json", 12345)]. *)
Definition w1 : @World nat :=
  {| fs := ∅; native := 1%nat;
     log := [CallLoadModel "bernoulli.data.json" 12345 1024 1000] |}.

(** The components of a slash-separated path. *)
Fixpoint split_path (s : string) (cur : string) : list string :=
  match s with
  | EmptyString => if String.eqb cur "" then [] else [cur]
  | String a rest =>
      if Ascii.eqb a "/"
      then (if String.eqb cur "" then [] else [cur]) ++ split_path rest ""
      else split_path rest (cur ++ String a EmptyString)
  end%list.

Definition stan_file : Path.t := ["stan"; "examples"; "bernoulli.stan"].
Definition so_file : Path.t := ["stan"; "examples"; "bernoulli_model.so"].
Definition makefile : Path.t := ["stan"; "makefile"].

(** A make that builds [examples/bernoulli_model.so] and knows no other
    target. *)
Definition make (cmd : list string) (dir : Path.t) (fsys : FS) : @RunResult * FS :=
  match cmd with
  | ["make"; "examples/bernoulli_model.so"] => (Completed 0 "built" "", <[so_file := 30]> fsys)
  | _ => (Completed 2 "make: Entering directory" "make: *** No rule to make target", fsys)
  end.

Definition os (cwd : Path.t) : @OS nat := {|
  environ_STAN_ROOT := Some "/stan";
  resolve := fun s =>
    match s with
    | String "/" _ => split_path s ""
    | _ => (cwd ++ split_path s "")%list
    end;
  python_dir := ["stan"; "python"];
  getcwd := cwd;
  subprocess_run := make;
  CDLL := fun path fsys =>
    match fsys !! split_path path "" with
    | Some _ => inr lib
    | None => inl (path ++ ": cannot open shared object file: No such file or directory")
    end
|}.

(** Source and makefile without an artifact; with a newer artifact; with an
    older one. *)
Definition fs_source : FS := <[stan_file := 20]> (<[makefile := 1]> ∅).
Definition fs_fresh : FS := <[so_file := 25]> fs_source.
Definition fs_stale : FS := <[so_file := 15]> fs_source.

(** A second source, which the stub make cannot build. *)
Definition other_file : Path.t := ["stan"; "models"; "eight.stan"].
Definition fs_other : FS := <[other_file := 5]> fs_source.

Definition world (fsys : FS) : @World nat := {| fs := fsys; native := 0%nat; log := [] |}.

End Stub.

(** ** Terms used in the statements *)

(** The pair of arrays that holds the items of [d], a key and its text per
    slot. *)
Definition arrays_of (d : Dict.t PyValue) : list (option string) * list (option string) :=
  (List.map (fun kv => Some (fst kv)) d,
   List.map (fun kv => Some (_value_to_string (snd kv))) d).

(** The parameter set [{warmup: 100, refresh: 0, delta: 0.9}]. *)
Definition example_parameters : Dict.t PyValue :=
  [("warmup", VInt 100); ("refresh", VInt 0); ("delta", VFloat (Float.of_decimal 9 (-1)))].

Section ResolverTerms.
Context {N : Type}.
Implicit Types (os : @OS N) (w : @World N).

(** The artifact that belongs to a resolved source path. *)
Definition artifact_path (stan_path : Path.t) : Path.t :=
  Path.child (Path.parent stan_path) (artifact_name (Path.stem stan_path)).

(** The log of [w'] extends the log of [w] by events that are not build
    invocations. *)
Definition no_build_between w w' : Prop :=
  exists evs, log w' = (log w ++ evs)%list /\ List.filter is_run_process evs = [].

(** What [compile] prints before it runs make. *)
Definition announce os (stan_file : string) : list Event :=
  let makefile_dir := find_makefile_dir os in
  let '(target, warning) := make_target makefile_dir (getcwd os) (resolve os stan_file) in
  ([Print ("Compiling Stan model: " ++ stan_file);
    Print ("Using makefile directory: " ++ Path.to_str makefile_dir)]
   ++ match warning with Some line => [Print line] | None => [] end
   ++ [Print ("Running: " ++ Str.join " " ["make"; target]
              ++ " (from " ++ Path.to_str makefile_dir ++ ")")])%list.

(** The text of the error raised for a failed build. *)
Definition build_failed_text (cmd : list string) (dir : Path.t) (stdout stderr : string) : string :=
  "Compilation error: Compilation failed:" ++ Str.nl
  ++ "Command: " ++ Str.join " " cmd ++ Str.nl
  ++ "Working directory: " ++ Path.to_str dir ++ Str.nl
  ++ "STDOUT:" ++ Str.nl ++ stdout ++ Str.nl
  ++ "STDERR:" ++ Str.nl ++ stderr.

(** The conditions under which [compile] gets as far as deciding whether to
    build: the source exists with the right extension and the makefile is
    in place. *)
Definition valid_request os (stan_file : string) w : Prop :=
  let stan_path := resolve os stan_file in
  exists_ (fs w) stan_path = true
  /\ Path.suffix stan_path = ".stan"
  /\ exists_ (fs w) (Path.child (find_makefile_dir os) "makefile") = true.

(** The artifact is reused: it exists and is strictly newer than the source. *)
Definition fresh (fsys : FS) (stan_path : Path.t) : bool :=
  exists_ fsys (artifact_path stan_path) && newer fsys (artifact_path stan_path) stan_path.

(** The result of [compile] when it builds, in terms of what make does. *)
Definition build_outcome os (stan_file : string) w : Result (@CompiledModel N) * @World N :=
  let stan_path := resolve os stan_file in
  let makefile_dir := find_makefile_dir os in
  let so_path := artifact_path stan_path in
  let cmd := ["make"; fst (make_target makefile_dir (getcwd os) stan_path)] in
  let '(res, fs') := subprocess_run os cmd makefile_dir (fs w) in
  let w_run := {| fs := fs'; native := native w;
                  log := (log w ++ announce os stan_file ++ [RunProcess cmd makefile_dir])%list |} in
  match res with
  | RunRaises e =>
      (Raise (mkExn StoshError
                (if catches FileNotFoundError (exn_class e)
                 then "Make command not found. Ensure GNU make is installed and in PATH."
                 else "Compilation error: " ++ exn_str e)), w_run)
  | Completed rc stdout stderr =>
      if negb (rc =? 0) then
        (Raise (mkExn StoshError (build_failed_text cmd makefile_dir stdout stderr)), w_run)
      else if negb (exists_ fs' so_path) then
        (Raise (mkExn StoshError
                  ("Compilation error: Compilation succeeded but output file not found: "
                   ++ Path.to_str so_path)), w_run)
      else
        let '(r, w') :=
          CompiledModel_init os (Path.to_str so_path)
            (world_log [Print ("Compilation successful: " ++ Path.to_str so_path)] w_run) in
        match r with
        | Ok m => (Ok m, w')
        | Raise e => (Raise (mkExn StoshError ("Compilation error: " ++ exn_str e)), w')
        end
  end.

End ResolverTerms.

(** ** Sessions over time *)

Section SessionScripts.
Context {N : Type}.

(** [__enter__]: entering a [with] block yields the object itself. *)
Definition __enter__ : @Method N (@CompiledModel N) := get_self.

(** [with obj as model: body]: [__enter__], the body, then [__exit__]
    whether the body returned or raised; [__exit__] returns [None], so an
    exception of the body propagates. *)
Definition with_block {A} (body : @Method N A) : @Method N A :=
  fun f =>
    let '(_, f0) := __enter__ f in
    let '(r, f1) := body f0 in
    match __exit__ f1 with
    | (Ok _, f2) => (r, f2)
    | (Raise e, f2) => (Raise e, f2)
    end.

(** One call on a session by a caller that catches whatever it raises. *)
Inductive Op : Type :=
  | OpLoadData (data : Data) (seed : Z)
  | OpHmcNuts (kwargs : Dict.t PyValue)
  | OpName
  | OpEnter
  | OpExit.

Definition step (op : Op) (f : @Frame N) : @Frame N :=
  match op with
  | OpLoadData data seed => snd (load_data data seed f)
  | OpHmcNuts kwargs => snd (hmc_nuts kwargs f)
  | OpName => snd (name f)
  | OpEnter => snd (__enter__ f)
  | OpExit => snd (__exit__ f)
  end.

(** A script: calls in sequence. *)
Definition perform (ops : list Op) (f : @Frame N) : @Frame N :=
  fold_left (fun f op => step op f) ops f.

End SessionScripts.

(** Every handle that the events pass to the native side is live at that
    moment, starting from the live handles [acc]: no use after free and no
    second free. *)
Fixpoint uses_live (evs : list Event) (acc : list Z) : bool :=
  let is_live h := if in_dec Z.eq_dec h acc then true else false in
  match evs with
  | [] => true
  | CallLoadModel _ _ _ p :: rest => uses_live rest (if p =? 0 then acc else p :: acc)
  | CallFreeModel h :: rest => is_live h && uses_live rest (List.remove Z.eq_dec h acc)
  | CallRunSamplers h _ _ _ _ _ _ :: rest => is_live h && uses_live rest acc
  | CallGetModelName h :: rest => is_live h && uses_live rest acc
  | _ :: rest => uses_live rest acc
  end.

(** The session and the log agree: the live handles are exactly the one
    the session holds, it is not null, and the log passed only live
    handles to the native side. *)
Definition consistent `{N : Type} (f : @Frame N) : Prop :=
  live (log (world f)) = held (self f)
  /\ uses_live (log (world f)) [] = true
  /\ (forall h, _model_handle (self f) = Some h -> h <> 0).

(** Text made of ASCII characters only. *)
Definition is_ascii (s : string) : bool :=
  forallb (fun a => Nat.ltb (nat_of_ascii a) 128) (list_ascii_of_string s).

(** The text [load_data] passes as the data path: the path, or the empty
    string when there is no data. *)
Definition data_path (data : Data) : string :=
  match data with DataPath p => p | _ => "" end.

(** The events that are calls of a native entry point. *)
Definition is_native_call (ev : Event) : bool :=
  match ev with
  | CallLoadModel _ _ _ _ | CallRunSamplers _ _ _ _ _ _ _ | CallFreeModel _
  | CallGetModelName _ => true
  | _ => false
  end.

(** The entry points a library must export. *)
Definition required_symbols : list string :=
  ["stosh_load_model"; "stosh_run_samplers"; "stosh_free_model"].

(** ** More stubs *)

Module StubMore.

(** A library whose sampler rejects every call. *)
Definition failing_lib : @NativeLib nat := {|
  symbol_error := fun _ => None;
  stosh_load_model := stosh_load_model Stub.lib;
  stosh_run_samplers := fun _ _ _ _ _ _ n => ((1, "", "bad parameter" ++ Stub.nul), n);
  stosh_free_model := fun _ n => n;
  stosh_get_model_name := fun _ n => (None, n)
|}.

(** A library whose loader fails and leaves bytes that are not UTF-8. *)
Definition garbling_lib : @NativeLib nat := {|
  symbol_error := fun _ => None;
  stosh_load_model := fun _ _ _ n => ((0, String (ascii_of_nat 255) EmptyString), n);
  stosh_run_samplers := stosh_run_samplers Stub.lib;
  stosh_free_model := fun _ n => n;
  stosh_get_model_name := fun _ n => (None, n)
|}.

(** A library that lacks [stosh_run_samplers]. *)
Definition broken_lib : @NativeLib nat := {|
  symbol_error := fun sym =>
    if String.eqb sym "stosh_run_samplers"
    then Some "undefined symbol: stosh_run_samplers" else None;
  stosh_load_model := stosh_load_model Stub.lib;
  stosh_run_samplers := stosh_run_samplers Stub.lib;
  stosh_free_model := fun _ n => n;
  stosh_get_model_name := fun _ n => (None, n)
|}.

Definition session (lib : @NativeLib nat) (h : option Z) : @CompiledModel nat :=
  {| _so_path := "/stan/examples/bernoulli_model.so"; _lib := lib; _model_handle := h |}.

(** A make that reports success and builds nothing. *)
Definition lazy_make (cmd : list string) (dir : Path.t) (fsys : FS) : @RunResult * FS :=
  (Completed 0 "make: Nothing to be done" "", fsys).

(** No make on the path. *)
Definition absent_make (cmd : list string) (dir : Path.t) (fsys : FS) : @RunResult * FS :=
  (RunRaises (mkExn FileNotFoundError "[Errno 2] No such file or directory: 'make'"), fsys).

(** The stub system with another make and another loader. *)
Definition os_with (mk : list string -> Path.t -> FS -> @RunResult * FS)
    (dl : string -> FS -> string + @NativeLib nat) (cwd : Path.t) : @OS nat := {|
  environ_STAN_ROOT := environ_STAN_ROOT (Stub.os cwd);
  resolve := resolve (Stub.os cwd);
  python_dir := python_dir (Stub.os cwd);
  getcwd := cwd;
  subprocess_run := mk;
  CDLL := dl
|}.

(** A script: load, sample, reload with a dictionary, sample, load. *)
Definition script : list Op :=
  [OpLoadData (DataPath "bernoulli.data.json") 12345;
   OpHmcNuts [("warmup", VInt 100)];
   OpName;
   OpLoadData (DataDict [("N", VInt 10)]) 1;
   OpHmcNuts [];
   OpLoadData DataNone 7].

End StubMore.

(** * Properties *)

(** ** The conversions on known values *)

(** The assertions of [test_value_conversion] in [test_stosh.py]. *)
Example test_value_conversion :
  _value_to_string (VBool true) = "true"
  /\ _value_to_string (VBool false) = "false"
  /\ _value_to_string (VInt 42) = "42"
  /\ _value_to_string (VFloat (Float.of_decimal 314 (-2))) = "3.14"
  /\ _value_to_string (VStr "hello") = "hello".
Proof. vm_compute. repeat split. Qed.

Example float_repr_examples :
  List.map Float.repr
    [Float.of_decimal 9 (-1); Float.of_decimal 1 (-1); Float.of_decimal 100 0;
     Float.of_decimal 1 16; Float.of_decimal 1 15; Float.of_decimal 1 (-4);
     Float.of_decimal 1 (-5); Float.of_decimal (-25) (-1); Float.of_ratio 1 3;
     Float.Fin false 5404319552844596 (-54); Float.of_decimal 5 (-324);
     Float.of_decimal 17976931348623157 292; Float.of_decimal 1 400]
  = ["0.9"; "0.1"; "100.0"; "1e+16"; "1000000000000000.0"; "0.0001"; "1e-05"; "-2.5";
     "0.3333333333333333"; "0.30000000000000004"; "5e-324";
     "1.7976931348623157e+308"; "inf"].
Proof. vm_compute. reflexivity. Qed.

Example float_literal_example :
  Float.of_decimal 9 (-1) = Float.Fin false 8106479329266893 (-53).
Proof. vm_compute. reflexivity. Qed.

Example utf8_decode_examples :
  Utf8.decode "seed required" = inl "seed required"
  /\ Utf8.decode (String (ascii_of_nat 255) EmptyString)
     = inr "'utf-8' codec can't decode byte 0xff in position 0: invalid start byte"
  /\ Utf8.decode (String (ascii_of_nat 226) (String (ascii_of_nat 130) EmptyString))
     = inr "'utf-8' codec can't decode bytes in position 0-1: unexpected end of data".
Proof. vm_compute. repeat split. Qed.

Example suffix_examples :
  Path.suffix ["stan"; "examples"; "bernoulli.stan"] = ".stan"
  /\ Path.stem ["stan"; "examples"; "bernoulli.stan"] = "bernoulli"
  /\ Path.suffix ["test.txt"] = ".txt"
  /\ Path.suffix [".stan"] = ""
  /\ Path.suffix ["model.tar.stan"] = ".stan"
  /\ Path.stem ["model.tar.stan"] = "model.tar".
Proof. vm_compute. repeat split. Qed.

(** ** Marshalling *)

Lemma setitem_fresh {V} (k : string) (v : V) (d : Dict.t V) :
  ~ In k (Dict.keys d) -> Dict.setitem k v d = (d ++ [(k, v)])%list.
Proof.
  induction d as [|[k' v'] d IH]; intros Hnin; [reflexivity|].
  cbn [Dict.setitem app]. cbn in Hnin.
  destruct (String.eqb k' k) eqn:E.
  - apply String.eqb_eq in E. exfalso. apply Hnin. left. exact E.
  - rewrite IH; [reflexivity|]. intros Hin. apply Hnin. right. exact Hin.
Qed.

Lemma comprehension_acc {V W} (f : V -> W) (d : Dict.t V) (acc : Dict.t W) :
  List.NoDup (Dict.keys acc ++ Dict.keys d) ->
  fold_left (fun acc kv => Dict.setitem (fst kv) (f (snd kv)) acc) d acc
  = (acc ++ List.map (fun kv => (fst kv, f (snd kv))) d)%list.
Proof.
  revert acc. induction d as [|[k v] d IH]; intros acc Hnd.
  - cbn. rewrite app_nil_r. reflexivity.
  - cbn [fold_left List.map fst snd].
    assert (Hk : ~ In k (Dict.keys acc)).
    { intros Hin. cbn in Hnd. apply NoDup_remove_2 in Hnd. apply Hnd.
      apply in_or_app. left. exact Hin. }
    rewrite (setitem_fresh _ _ _ Hk). rewrite IH.
    + rewrite <- app_assoc. reflexivity.
    + unfold Dict.keys in *. rewrite List.map_app. cbn [List.map fst].
      rewrite <- app_assoc. exact Hnd.
Qed.

Lemma comprehension_wf {V W} (f : V -> W) (d : Dict.t V) :
  Dict.wf d -> Dict.comprehension f d = List.map (fun kv => (fst kv, f (snd kv))) d.
Proof. intros Hwf. unfold Dict.comprehension. rewrite comprehension_acc; [reflexivity|exact Hwf]. Qed.

Lemma fill_arrays (items : list (string * string)) :
  forall (ks vs : list (option string)),
    List.length ks = List.length vs ->
    fold_left
      (fun arrays item =>
         let '(i, (key, value)) := item in
         (<[i := Some (Utf8.encode key)]> (fst arrays),
          <[i := Some (Utf8.encode value)]> (snd arrays)))
      (combine (seq (List.length ks) (List.length items)) items)
      ((ks ++ c_char_p_array (List.length items))%list,
       (vs ++ c_char_p_array (List.length items))%list)
    = ((ks ++ List.map (fun kv => Some (fst kv)) items)%list,
       (vs ++ List.map (fun kv => Some (snd kv)) items)%list).
Proof.
  induction items as [|[k v] items IH]; intros ks vs Hlen.
  - reflexivity.
  - cbn [List.length seq combine fold_left fst snd c_char_p_array replicate List.map].
    unfold Utf8.encode.
    rewrite (insert_app_r_alt ks), (insert_app_r_alt vs) by (rewrite ?Hlen; reflexivity).
    rewrite <- Hlen, Nat.sub_diag. cbn [insert list_insert].
    specialize (IH (ks ++ [Some k])%list (vs ++ [Some v])%list).
    rewrite !length_app in IH. cbn [List.length] in IH.
    replace (List.length ks + 1)%nat with (S (List.length ks)) in IH by lia.
    replace (List.length vs + 1)%nat with (S (List.length vs)) in IH by lia.
    rewrite <- !app_assoc in IH. cbn [app] in IH. unfold Utf8.encode in IH.
    rewrite Hlen. rewrite Hlen in IH. unfold c_char_p_array in IH.
    apply IH. reflexivity.
Qed.

(** Marshalling a non-empty dict keeps its keys, their order and their
    number, and turns each value into its text. *)
Lemma kwargs_to_c_arrays_wf (kwargs : Dict.t PyValue) :
  Dict.wf kwargs -> kwargs <> [] ->
  _kwargs_to_c_arrays kwargs = (Some (fst (arrays_of kwargs)), Some (snd (arrays_of kwargs))).
Proof.
  intros Hwf Hne. unfold _kwargs_to_c_arrays.
  destruct kwargs as [|kv rest] eqn:E; [contradiction|]. rewrite <- E in *. clear E kv rest Hne.
  rewrite (comprehension_wf _ _ Hwf). unfold enumerate.
  rewrite List.length_map.
  pose proof (fill_arrays (List.map (fun kv => (fst kv, _value_to_string (snd kv))) kwargs)
                [] [] eq_refl) as H.
  rewrite List.length_map in H. cbn [List.length app] in H. rewrite H.
  unfold arrays_of. rewrite !List.map_map. reflexivity.
Qed.

(** C7. Marshalling [{warmup: 100, refresh: 0, delta: 0.9}] gives the key
    array [warmup, refresh, delta] and the value array [100, 0, 0.9], as
    texts: the keys are the original ones and there are three entries. *)
Theorem marshal_example_parameters :
  _kwargs_to_c_arrays example_parameters
  = (Some [Some "warmup"; Some "refresh"; Some "delta"],
     Some [Some "100"; Some "0"; Some "0.9"])
  /\ List.map (fun k => Some k) (Dict.keys example_parameters)
     = [Some "warmup"; Some "refresh"; Some "delta"]
  /\ List.length example_parameters = 3%nat.
Proof. split; [vm_compute; reflexivity|]. split; reflexivity. Qed.

(** C8. A boolean is marshalled as the word [true] or [false], never as
    the digit that the corresponding integer is marshalled as. *)
Theorem bool_marshalled_as_word (b : bool) :
  _value_to_string (VBool b) = (if b then "true" else "false")
  /\ _value_to_string (VBool b) <> "1"
  /\ _value_to_string (VBool b) <> "0"
  /\ _value_to_string (VInt (if b then 1 else 0)) = (if b then "1" else "0")
  /\ forall key, _kwargs_to_c_arrays [(key, VBool b)]
                 = (Some [Some key], Some [Some (if b then "true" else "false")]).
Proof.
  destruct b; repeat split; try reflexivity; try discriminate.
Qed.

(** ** The session *)

Section SessionFacts.
Context {N : Type}.
Implicit Types (obj : @CompiledModel N) (w : @World N).

Ltac unfold_method :=
  cbv beta iota zeta delta
    [call load_data hmc_nuts __exit__ __del__ bind get_self call_free_model
     call_load_model call_run_samplers native_step set_model_handle modify
     raise ret decode_utf8];
  cbn [self world fs native log _lib _model_handle _so_path fst snd].

Lemma live_after_app evs1 evs2 acc :
  live_after (evs1 ++ evs2) acc = live_after evs2 (live_after evs1 acc).
Proof.
  revert acc. induction evs1 as [|ev evs1 IH]; intros acc; [reflexivity|].
  destruct ev; simpl; auto.
Qed.

Lemma live_app evs1 evs2 : live (evs1 ++ evs2) = live_after evs2 (live evs1).
Proof. apply live_after_app. Qed.

Lemma remove_single (h : Z) : List.remove Z.eq_dec h [h] = [].
Proof. simpl. destruct (Z.eq_dec h h); congruence. Qed.

Lemma live_after_release h : live_after [CallFreeModel h] [h] = [].
Proof. cbn [live_after]. apply remove_single. Qed.

Lemma live_after_release_load h d s c p :
  live_after [CallFreeModel h; CallLoadModel d s c p] [h] = if p =? 0 then [] else [p].
Proof. cbn [live_after]. rewrite remove_single. reflexivity. Qed.

Lemma handle_truthy_void_p p :
  handle_truthy (Ctypes.void_p_result p) = negb (p =? 0).
Proof.
  unfold Ctypes.void_p_result. destruct (p =? 0) eqn:E; simpl; [reflexivity|].
  rewrite E. reflexivity.
Qed.

Ltac destruct_load ptr written n' :=
  match goal with
  | |- context [stosh_load_model ?l ?d ?s ?c ?n] =>
      destruct (stosh_load_model l d s c n) as [[ptr written] n'] eqn:?
  end; unfold_method; rewrite ?handle_truthy_void_p, ?negb_involutive.

(** A call of [load_data] that raises, whatever the reason, leaves the
    session without a handle. *)
Lemma load_data_raise_empty obj w data seed e obj' w' :
  call (load_data data seed) obj w = (Raise e, obj', w') -> StateEmpty obj'.
Proof.
  unfold StateEmpty. unfold_method.
  destruct (_model_handle obj) as [h|] eqn:Hh; destruct data as [|p|d]; unfold_method;
    try (intros H; inversion H; subst; (reflexivity || assumption)).
  all: destruct_load ptr written n'.
  all: destruct (ptr =? 0) eqn:Ep; unfold_method; try (intros H; discriminate H).
  all: destruct (Utf8.decode _); intros H; inversion H; subst; cbn;
       unfold Ctypes.void_p_result; rewrite Ep; reflexivity.
Qed.

(** A call of [load_data] that returns leaves the session with the handle
    the native side returned, which is not null. *)
Lemma load_data_ok_loaded obj w data seed obj' w' :
  call (load_data data seed) obj w = (Ok tt, obj', w') ->
  exists h, _model_handle obj' = Some h /\ h <> 0.
Proof.
  unfold_method.
  destruct (_model_handle obj) as [h|] eqn:Hh; destruct data as [|p|d]; unfold_method;
    try (intros H; discriminate H).
  all: destruct_load ptr written n'.
  all: destruct (ptr =? 0) eqn:Ep; unfold_method;
       [destruct (Utf8.decode _); intros H; discriminate H|].
  all: intros H; inversion H; subst; cbn; exists ptr;
       unfold Ctypes.void_p_result; rewrite Ep; split; [reflexivity|];
       apply Z.eqb_neq; exact Ep.
Qed.

(** Leaving a [with] block twice releases the handle once. *)
Lemma exit_idempotent obj w r obj' w' :
  call __exit__ obj w = (r, obj', w') ->
  call __exit__ obj' w' = (Ok tt, obj', w').
Proof.
  unfold_method. destruct (_model_handle obj) as [h|] eqn:Hh; unfold_method.
  - cbn [handle_truthy]. destruct (negb (h =? 0)) eqn:E; unfold_method;
      intros H; inversion H; subst; unfold_method.
    + reflexivity.
    + rewrite Hh. cbn [handle_truthy]. rewrite E. reflexivity.
  - intros H; inversion H; subst. rewrite Hh. reflexivity.
Qed.

(** C1. A session that holds a handle [h] and is asked to load data again
    passes [h] to [free_model] exactly once, and does so before it calls
    [load_model] (if it gets that far): the log grows by [CallFreeModel h]
    followed by at most the one [load_model] call and by no other release.
    This holds for every data argument and every outcome of the new load,
    so when [h] was the only live handle, afterwards the live handles are
    exactly the one the session holds, if any. *)
Theorem load_data_releases_held_handle_first obj w h data seed :
  _model_handle obj = Some h ->
  exists r obj' w' tail,
    call (load_data data seed) obj w = (r, obj', w')
    /\ log w' = (log w ++ CallFreeModel h :: tail)%list
    /\ List.filter is_free tail = []
    /\ (tail = [] \/
        exists d s c p, tail = [CallLoadModel d s c p]
                        /\ _model_handle obj' = Ctypes.void_p_result p)
    /\ (live (log w) = [h] -> live (log w') = held obj').
Proof.
  intros Hh. unfold_method. rewrite Hh. unfold_method.
  destruct data as [|p|d]; unfold_method.
  3: { do 4 eexists. split; [reflexivity|]. cbn [log world self].
       split; [reflexivity|]. split; [reflexivity|]. split; [left; reflexivity|].
       intros Hl. rewrite live_app, Hl. apply live_after_release. }
  all: destruct_load ptr written n'.
  all: destruct (ptr =? 0) eqn:Ep; unfold_method; [destruct (Utf8.decode _)|].
  all: do 4 eexists; (split; [reflexivity|]); cbn [log world self]; rewrite <- app_assoc;
       (split; [reflexivity|]); (split; [reflexivity|]);
       (split; [right; do 4 eexists; split; reflexivity|]).
  all: intros Hl; rewrite live_app, Hl; cbn [app]; rewrite live_after_release_load, Ep;
       unfold held, Ctypes.void_p_result; cbn [_model_handle];
       rewrite Ep; reflexivity.
Qed.

(** C2. On a session without a handle, [hmc_nuts] raises the no-data error
    and changes nothing: the object, the native state and the log are the
    ones it started from, so no native entry point was called.  The error
    differs from every data-load failure. *)
Theorem hmc_nuts_without_data obj w kwargs :
  StateEmpty obj ->
  call (hmc_nuts kwargs) obj w = (Raise NoDataLoaded, obj, w)
  /\ (forall text, NoDataLoaded <> DataLoadFailed text).
Proof.
  intros He. red in He. split.
  - unfold_method. rewrite He. destruct obj, w; reflexivity.
  - intros text H. discriminate H.
Qed.

(** C3, as amended.  When [load_model] returns null and leaves the text
    [seed required] in the error buffer, [load_data] raises a [StoshError]
    whose message is that text behind the fixed prefix
    [Failed to load data: ], and the session is left without a handle. *)
Theorem load_data_native_failure_message obj w data seed written n' :
  (forall d, data <> DataDict d) ->
  stosh_load_model (_lib obj)
    (Utf8.encode (match data with DataPath p => p | _ => "" end))
    (Ctypes.c_uint seed) Ctypes.buffer_capacity (released obj w) = ((0, written), n') ->
  Ctypes.value Ctypes.buffer_capacity written = "seed required" ->
  exists w',
    call (load_data data seed) obj w =
      (Raise (mkExn StoshError "Failed to load data: seed required"),
       with_handle obj None, w')
    /\ native w' = n'
    /\ DataLoadFailed "seed required" = mkExn StoshError "Failed to load data: seed required"
    /\ StateEmpty (with_handle obj None).
Proof.
  intros Hd Hload Hval. unfold released in Hload. unfold_method.
  destruct (_model_handle obj) as [h|]; unfold_method;
    (destruct data as [|p|d]; [| |exfalso; eapply Hd; reflexivity]); unfold_method;
    rewrite Hload; unfold_method; rewrite Hval; cbn;
    eexists; (split; [reflexivity|]); repeat split; reflexivity.
Qed.

(** C9, as amended.  On a session that holds a handle [h], [hmc_nuts] with
    no parameters raises nothing while marshalling and calls
    [run_samplers] with [h], two null array pointers and the count 0; the
    outcome is the one the native status decides. *)
Theorem hmc_nuts_empty_parameters obj w h status out err n' :
  _model_handle obj = Some h ->
  stosh_run_samplers (_lib obj) h None None 0
    Ctypes.buffer_capacity Ctypes.buffer_capacity (native w) = ((status, out, err), n') ->
  _kwargs_to_c_arrays [] = (None, None)
  /\ exists r,
      call (hmc_nuts []) obj w =
        (r, obj,
         {| fs := fs w; native := n';
            log := (log w ++ [CallRunSamplers h None None 0
                               Ctypes.buffer_capacity Ctypes.buffer_capacity status])%list |})
      /\ (status = 0 ->
          forall dir, Utf8.decode (Ctypes.value Ctypes.buffer_capacity out) = inl dir ->
                      r = Ok [("output_dir", dir)]).
Proof.
  intros Hh Hrun. split; [reflexivity|].
  unfold_method. rewrite Hh. cbn [_kwargs_to_c_arrays List.length].
  change (Z.of_nat 0) with 0. unfold_method. rewrite Hrun. unfold_method.
  destruct (status =? 0) eqn:Es; cbn [negb].
  - destruct (Utf8.decode (Ctypes.value Ctypes.buffer_capacity out)) as [dir|msg] eqn:Ed;
      (eexists; split; [destruct obj; reflexivity|]); intros _ dir' Hd; congruence.
  - destruct (Utf8.decode (Ctypes.value Ctypes.buffer_capacity err));
      (eexists; split; [destruct obj; reflexivity|]);
      intros Hs; rewrite Hs in Es; discriminate Es.
Qed.

(** C10. On a session that holds a handle [h], [load_data] with a
    dictionary raises the unsupported-input error after [h] has been passed
    to [free_model]: the native state is the one after the release, the log
    has grown by that one call, and the session is left without a handle. *)
Theorem load_data_dict_rejected_after_release obj w h d seed :
  _model_handle obj = Some h ->
  call (load_data (DataDict d) seed) obj w =
    (Raise UnsupportedInput,
     with_handle obj None,
     {| fs := fs w;
        native := stosh_free_model (_lib obj) h (native w);
        log := (log w ++ [CallFreeModel h])%list |})
  /\ StateEmpty (with_handle obj None).
Proof.
  intros Hh. split; [|reflexivity]. unfold_method. rewrite Hh. unfold_method. reflexivity.
Qed.

End SessionFacts.

(** ** The artifact resolver *)

Section CompileFacts.
Context {N : Type}.
Implicit Types (os : @OS N) (w : @World N).

Ltac unfold_world :=
  cbv beta iota zeta delta
    [compile CompiledModel_init _load_library _setup_function_signatures
     bind get print emit modify raise ret run try_except world_log];
  cbn [fs native log fst snd].

Lemma CompiledModel_init_effect os so_path w :
  exists r,
    CompiledModel_init os so_path w = (r, world_log [LoadLibrary so_path] w)
    /\ forall m, r = Ok m -> _so_path m = so_path /\ StateEmpty m.
Proof.
  unfold_world.
  destruct (CDLL os so_path (fs w)) as [msg|lib]; unfold_world.
  - cbn. eexists; split; [reflexivity|]. intros m H; discriminate H.
  - destruct (symbol_error lib "stosh_load_model"); unfold_world; cbn;
      [eexists; split; [reflexivity|]; intros m H; discriminate H|].
    destruct (symbol_error lib "stosh_run_samplers"); unfold_world; cbn;
      [eexists; split; [reflexivity|]; intros m H; discriminate H|].
    destruct (symbol_error lib "stosh_free_model"); unfold_world; cbn;
      [eexists; split; [reflexivity|]; intros m H; discriminate H|].
    eexists; split; [reflexivity|]. intros m H; inversion H; subst. split; reflexivity.
Qed.

(** The artifact is fresh exactly when it exists and its timestamp is
    strictly greater than that of its existing source. *)
Lemma fresh_iff (fsys : FS) (stan_path : Path.t) :
  fresh fsys stan_path = true <->
  exists t_so t_src,
    fsys !! artifact_path stan_path = Some t_so
    /\ fsys !! stan_path = Some t_src
    /\ t_src < t_so.
Proof.
  unfold fresh, exists_, newer.
  destruct (fsys !! artifact_path stan_path) as [t_so|];
    destruct (fsys !! stan_path) as [t_src|]; cbn [andb].
  - rewrite Z.ltb_lt. split.
    + intros H. exists t_so, t_src. auto.
    + intros (a & b & Ha & Hb & Hlt). congruence.
  - split; [discriminate|]. intros (a & b & _ & Hb & _). discriminate Hb.
  - split; [discriminate|]. intros (a & b & Ha & _). discriminate Ha.
  - split; [discriminate|]. intros (a & b & Ha & _). discriminate Ha.
Qed.

(** C4, as amended.  For a source that exists with the [.stan] extension,
    with the makefile in place and an artifact that exists with a strictly
    newer timestamp, [compile] without [force] runs no build process: it
    prints that it uses the existing artifact, tries to load the library at
    the path of that artifact and does nothing else, so the file system
    and the native state are as before.  When the library loads with its
    three required entry points, [compile] returns a session on the path
    of the existing artifact that holds no handle; when the loader refuses
    the library, it raises. *)
Theorem compile_reuses_fresh_artifact os stan_file w t_src t_so :
  let stan_path := resolve os stan_file in
  let so_path := artifact_path stan_path in
  let w' := {| fs := fs w; native := native w;
               log := (log w ++ [Print ("Using existing compiled model: " ++ Path.to_str so_path);
                                LoadLibrary (Path.to_str so_path)])%list |} in
  fs w !! stan_path = Some t_src ->
  Path.suffix stan_path = ".stan" ->
  exists_ (fs w) (Path.child (find_makefile_dir os) "makefile") = true ->
  fs w !! so_path = Some t_so ->
  t_src < t_so ->
  (exists r, compile os stan_file false w = (r, w')
             /\ forall m, r = Ok m -> _so_path m = Path.to_str so_path /\ StateEmpty m)
  /\ no_build_between w w'
  /\ (forall lib,
        CDLL os (Path.to_str so_path) (fs w) = inr lib ->
        (forall sym, In sym required_symbols -> symbol_error lib sym = None) ->
        compile os stan_file false w
        = (Ok {| _so_path := Path.to_str so_path; _lib := lib; _model_handle := None |}, w'))
  /\ (forall msg,
        CDLL os (Path.to_str so_path) (fs w) = inl msg ->
        compile os stan_file false w
        = (Raise (mkExn StoshError ("Failed to load compiled model: " ++ msg)), w')).
Proof.
  intros stan_path so_path w' Hsrc Hsuf Hmk Hso Hlt.
  assert (Hw : world_log [LoadLibrary (Path.to_str so_path)]
                 (world_log [Print ("Using existing compiled model: " ++ Path.to_str so_path)] w)
               = w').
  { unfold world_log, w'. cbn [fs native log]. rewrite <- app_assoc. reflexivity. }
  assert (Hreuse : compile os stan_file false w
                   = CompiledModel_init os (Path.to_str so_path)
                       (world_log [Print ("Using existing compiled model: "
                                          ++ Path.to_str so_path)] w)).
  { unfold compile, bind at 1, get at 1.
    fold stan_path. unfold exists_ at 1. rewrite Hsrc. cbn [negb].
    rewrite Hsuf. cbn [String.eqb Ascii.eqb Bool.eqb negb].
    rewrite Hmk. cbn [negb].
    fold (artifact_path stan_path). fold so_path.
    unfold exists_ at 1, newer. rewrite Hso, Hsrc.
    replace (t_src <? t_so) with true by (symmetry; apply Z.ltb_lt; exact Hlt).
    cbn [negb andb]. reflexivity. }
  split; [|split; [|split]].
  - destruct (CompiledModel_init_effect os (Path.to_str so_path)
                (world_log [Print ("Using existing compiled model: "
                                   ++ Path.to_str so_path)] w))
      as (r & Hinit & Hok).
    exists r. rewrite Hreuse, Hinit, Hw. split; [reflexivity|exact Hok].
  - eexists. split; reflexivity.
  - intros lib Hdl Hsym. rewrite Hreuse, <- Hw. unfold_world. rewrite Hdl.
    rewrite (Hsym "stosh_load_model"), (Hsym "stosh_run_samplers"), (Hsym "stosh_free_model")
      by (cbn; auto).
    reflexivity.
  - intros msg Hdl. rewrite Hreuse, <- Hw. unfold_world. rewrite Hdl. reflexivity.
Qed.


Lemma CompiledModel_init_raises os so_path w e w' :
  CompiledModel_init os so_path w = (Raise e, w') ->
  catches FileNotFoundError (exn_class e) = false.
Proof.
  unfold_world.
  destruct (CDLL os so_path (fs w)) as [msg|lib]; unfold_world; cbn.
  - intros H; inversion H; reflexivity.
  - destruct (symbol_error lib "stosh_load_model"); unfold_world; cbn;
      [intros H; inversion H; reflexivity|].
    destruct (symbol_error lib "stosh_run_samplers"); unfold_world; cbn;
      [intros H; inversion H; reflexivity|].
    destruct (symbol_error lib "stosh_free_model"); unfold_world; cbn;
      [intros H; inversion H; reflexivity|].
    intros H; discriminate H.
Qed.

Lemma compile_builds os stan_file force w :
  valid_request os stan_file w ->
  negb force && fresh (fs w) (resolve os stan_file) = false ->
  compile os stan_file force w = build_outcome os stan_file w.
Proof.
  intros (Hsrc & Hsuf & Hmk) Hbuild.
  unfold compile, bind at 1, get at 1.
  rewrite Hsrc, Hsuf, Hmk. cbn [negb String.eqb Ascii.eqb Bool.eqb].
  fold (artifact_path (resolve os stan_file)).
  unfold fresh in Hbuild. rewrite andb_assoc in Hbuild. rewrite Hbuild.
  unfold build_outcome, announce.
  destruct (make_target (find_makefile_dir os) (getcwd os) (resolve os stan_file))
    as [target warning].
  cbn [fst].
  destruct (subprocess_run os ["make"; target] (find_makefile_dir os) (fs w))
    as [res fs'] eqn:Hrun.
  assert (Hpre : forall A (k : M (@World N) A) w0,
            (match warning with Some line => print line | None => ret tt end;; k)%monad w0
            = k (world_log (match warning with Some line => [Print line] | None => [] end) w0)).
  { intros A k w0. destruct warning; unfold_world; [reflexivity|].
    rewrite app_nil_r. destruct w0; reflexivity. }
  unfold bind at 1, print at 1, emit, modify.
  unfold bind at 1, print at 1, emit, modify.
  rewrite Hpre.
  unfold try_except, bind at 1, print at 1, emit, modify.
  unfold bind at 1, run at 1. cbn [world_log fs native log].
  rewrite Hrun.
  repeat rewrite <- app_assoc. cbn [app].
  destruct res as [e|rc out err].
  - cbn [find fst snd]. destruct (catches FileNotFoundError (exn_class e)) eqn:Hc.
    + reflexivity.
    + cbn [catches]. reflexivity.
  - destruct (rc =? 0) eqn:Hrc; cbn [negb].
    + unfold bind at 1, get at 1. cbn [fs].
      destruct (exists_ fs' (artifact_path (resolve os stan_file))) eqn:Hex; cbn [negb].
      * unfold bind at 1, print at 1, emit, modify. cbn [world_log fs native log].
        destruct (CompiledModel_init _ _ _) as [[m|e] w'] eqn:Hinit; [reflexivity|].
        apply CompiledModel_init_raises in Hinit. cbn [find fst snd exn_class].
        rewrite Hinit. reflexivity.
      * reflexivity.
    + reflexivity.
Qed.


Lemma str_app_assoc (a b c : string) : (a ++ b) ++ c = a ++ (b ++ c).
Proof. induction a as [|x a IH]; [reflexivity|]. change (String x ((a ++ b) ++ c) = String x (a ++ (b ++ c))). f_equal. exact IH. Qed.

(** C5. When a build is needed and make exits with a non-zero status,
    [compile] raises a [StoshError] whose text holds, verbatim and in this
    order, the command line, the captured standard output and the captured
    standard error; the build process was run once. *)
Theorem compile_build_failure_carries_output os stan_file force w rc stdout stderr fs' :
  let makefile_dir := find_makefile_dir os in
  let cmd := ["make"; fst (make_target makefile_dir (getcwd os) (resolve os stan_file))] in
  valid_request os stan_file w ->
  negb force && fresh (fs w) (resolve os stan_file) = false ->
  subprocess_run os cmd makefile_dir (fs w) = (Completed rc stdout stderr, fs') ->
  rc <> 0 ->
  exists text w',
    compile os stan_file force w = (Raise (mkExn StoshError text), w')
    /\ text = build_failed_text cmd makefile_dir stdout stderr
    /\ (exists pre mid1 mid2,
          text = pre ++ Str.join " " cmd ++ mid1 ++ stdout ++ mid2 ++ stderr)
    /\ List.filter is_run_process (log w') =
         (List.filter is_run_process (log w) ++ [RunProcess cmd makefile_dir])%list.
Proof.
  intros makefile_dir cmd Hvalid Hbuild Hrun Hrc.
  rewrite (compile_builds _ _ _ _ Hvalid Hbuild).
  unfold build_outcome. fold makefile_dir. fold cmd. rewrite Hrun.
  apply Z.eqb_neq in Hrc. rewrite Hrc. cbn [negb].
  eexists _, _. split; [reflexivity|]. split; [reflexivity|]. split.
  - unfold build_failed_text.
    exists ("Compilation error: Compilation failed:" ++ Str.nl ++ "Command: "),
           (Str.nl ++ "Working directory: " ++ Path.to_str makefile_dir ++ Str.nl
            ++ "STDOUT:" ++ Str.nl),
           (Str.nl ++ "STDERR:" ++ Str.nl).
    rewrite !str_app_assoc. reflexivity.
  - cbn [log]. rewrite !List.filter_app. unfold announce.
    destruct (make_target _ _ _) as [t [line|]]; cbn; rewrite ?app_nil_r; reflexivity.
Qed.


Lemma relative_to_app (p base rel : Path.t) :
  Path.relative_to p base = Some rel <-> p = (base ++ rel)%list.
Proof.
  revert p. induction base as [|b base IH]; intros p; cbn.
  - split; intros H; [inversion H; reflexivity | subst; reflexivity].
  - destruct p as [|c p]; [split; intros H; discriminate H|].
    destruct (String.eqb c b) eqn:E.
    + apply String.eqb_eq in E. subst c. rewrite IH.
      split; intros H; [subst; reflexivity | inversion H; reflexivity].
    + apply String.eqb_neq in E. split; intros H; [discriminate H|].
      inversion H. contradiction.
Qed.

Lemma last_app_nonempty {A} (l l' : list A) (d : A) :
  l' <> [] -> List.last (l ++ l') d = List.last l' d.
Proof.
  intros Hne. induction l as [|x l IH]; [reflexivity|].
  cbn [app]. rewrite <- IH.
  destruct (l ++ l')%list eqn:E; [|reflexivity].
  apply app_eq_nil in E. destruct E; contradiction.
Qed.

Lemma removelast_app_nonempty {A} (l l' : list A) :
  l' <> [] -> List.removelast (l ++ l') = (l ++ List.removelast l')%list.
Proof. intros Hne. apply List.removelast_app. exact Hne. Qed.

(** The artifact of a source strictly below [base] lies below [base], and
    its relative path is the parent of the source's relative path extended
    by the artifact name. *)
Lemma artifact_relative_to (stan_path base rel : Path.t) :
  Path.relative_to stan_path base = Some rel ->
  stan_path <> base ->
  Path.relative_to (artifact_path stan_path) base
  = Some (Path.child (Path.parent rel) (artifact_name (Path.stem stan_path))).
Proof.
  intros Hrel Hne. apply relative_to_app in Hrel.
  assert (Hrne : rel <> []) by (intros ->; rewrite app_nil_r in Hrel; contradiction).
  apply relative_to_app. unfold artifact_path, Path.child, Path.parent.
  rewrite Hrel at 1. rewrite removelast_app_nonempty by exact Hrne.
  rewrite <- app_assoc. reflexivity.
Qed.

Lemma name_child (p : Path.t) (c : string) : Path.name (Path.child p c) = c.
Proof.
  unfold Path.name, Path.child. rewrite last_app_nonempty by discriminate. reflexivity.
Qed.

Lemma build_outcome_log os stan_file w :
  let cmd := ["make"; fst (make_target (find_makefile_dir os) (getcwd os) (resolve os stan_file))] in
  exists after,
    log (snd (build_outcome os stan_file w))
    = (log w ++ announce os stan_file ++ RunProcess cmd (find_makefile_dir os) :: after)%list
    /\ List.filter is_run_process (announce os stan_file) = []
    /\ List.filter is_run_process after = [].
Proof.
  intros cmd. unfold build_outcome. fold cmd.
  assert (Hann : List.filter is_run_process (announce os stan_file) = []).
  { unfold announce. destruct (make_target _ _ _) as [t [line|]]; reflexivity. }
  destruct (subprocess_run os cmd (find_makefile_dir os) (fs w)) as [[e|rc out err] fs'].
  - exists []. cbn [snd log]. split; [reflexivity|]. split; [exact Hann|reflexivity].
  - destruct (negb (rc =? 0)).
    { exists []. cbn [snd log]. split; [reflexivity|]. split; [exact Hann|reflexivity]. }
    destruct (negb (exists_ fs' _)).
    { exists []. cbn [snd log]. split; [reflexivity|]. split; [exact Hann|reflexivity]. }
    match goal with
    | |- context [CompiledModel_init ?o ?p ?w0] =>
        destruct (CompiledModel_init_effect o p w0) as (r & Hinit & _); rewrite Hinit
    end.
    exists [Print ("Compilation successful: "
                   ++ Path.to_str (artifact_path (resolve os stan_file)));
            LoadLibrary (Path.to_str (artifact_path (resolve os stan_file)))].
    split; [|split; [exact Hann|reflexivity]].
    destruct r; cbn [snd log world_log]; rewrite <- !app_assoc; reflexivity.
Qed.

(** C6. When a build is needed, the make target is the artifact path
    relative to the makefile directory if the source lies below that
    directory; otherwise the artifact path relative to the current
    directory if the source lies below that one; otherwise the file name
    of the artifact.  The target is always defined, and [compile] runs
    make exactly once, with this target, in the makefile directory. *)
Theorem make_target_precedence os stan_file force w :
  let stan_path := resolve os stan_file in
  let makefile_dir := find_makefile_dir os in
  let cwd := getcwd os in
  let so_path := artifact_path stan_path in
  let target := fst (make_target makefile_dir cwd stan_path) in
  valid_request os stan_file w ->
  negb force && fresh (fs w) stan_path = false ->
  (is_Some (Path.relative_to stan_path makefile_dir) ->
     stan_path <> makefile_dir ->
     exists rel, Path.relative_to so_path makefile_dir = Some rel
                 /\ target = Path.rel_to_str rel)
  /\ (Path.relative_to stan_path makefile_dir = None ->
      is_Some (Path.relative_to stan_path cwd) ->
      stan_path <> cwd ->
      exists rel, Path.relative_to so_path cwd = Some rel
                  /\ target = Path.rel_to_str rel)
  /\ (Path.relative_to stan_path makefile_dir = None ->
      Path.relative_to stan_path cwd = None ->
      target = Path.name so_path)
  /\ exists r w' before after,
       compile os stan_file force w = (r, w')
       /\ log w' = (log w ++ before ++ RunProcess ["make"; target] makefile_dir :: after)%list
       /\ List.filter is_run_process before = []
       /\ List.filter is_run_process after = [].
Proof.
  intros stan_path makefile_dir cwd so_path target Hvalid Hbuild.
  split; [|split; [|split]].
  - intros [rel Hrel] Hmk. eexists. split.
    + apply (artifact_relative_to _ _ _ Hrel Hmk).
    + unfold target, make_target. rewrite Hrel. reflexivity.
  - intros Hout [rel Hrel] Hcwd. eexists. split.
    + apply (artifact_relative_to _ _ _ Hrel Hcwd).
    + unfold target, make_target. rewrite Hout, Hrel. reflexivity.
  - intros Hout1 Hout2. unfold target, make_target. rewrite Hout1, Hout2.
    unfold so_path, artifact_path. rewrite name_child. reflexivity.
  - rewrite (compile_builds _ _ _ _ Hvalid Hbuild).
    destruct (build_outcome_log os stan_file w) as (after & Hlog & Hb & Ha).
    destruct (build_outcome os stan_file w) as [r w'] eqn:Hout.
    exists r, w', (announce os stan_file), after.
    split; [reflexivity|]. split; [exact Hlog|]. split; assumption.
Qed.

End CompileFacts.

(** ** The properties on the stub boundary *)

(** Scenario A: with no artifact on disk, [compile] builds it and returns a
    session without a handle. *)
Example scenario_compile_builds :
  exists m w',
    compile (Stub.os ["stan"]) "examples/bernoulli.stan" false (Stub.world Stub.fs_source)
    = (Ok m, w')
    /\ StateEmpty m
    /\ _so_path m = "/stan/examples/bernoulli_model.so"
    /\ List.filter is_run_process (log w')
       = [RunProcess ["make"; "examples/bernoulli_model.so"] ["stan"]].
Proof. eexists _, _. split; [vm_compute; reflexivity|]. repeat split. Qed.

(** Scenario B: loading data and sampling returns the output location. *)
Example scenario_load_and_sample :
  call (load_data (DataPath "bernoulli.data.json") 12345) Stub.fresh Stub.w0
  = (Ok tt, Stub.loaded, Stub.w1)
  /\ fst (fst (call (hmc_nuts [("num_chains", VInt 2); ("warmup", VInt 100);
                               ("samples", VInt 100)]) Stub.loaded Stub.w1))
     = Ok [("output_dir", "/tmp/out")].
Proof. split; vm_compute; reflexivity. Qed.

Lemma load_data_releases_held_handle_first_witness :
  _model_handle Stub.loaded = Some 1000
  /\ exists r obj' w' tail,
       call (load_data (DataPath "noseed.json") 7) Stub.loaded Stub.w1 = (r, obj', w')
       /\ log w' = (log Stub.w1 ++ CallFreeModel 1000 :: tail)%list
       /\ List.filter is_free tail = []
       /\ (tail = [] \/
           exists d s c p, tail = [CallLoadModel d s c p]
                           /\ _model_handle obj' = Ctypes.void_p_result p)
       /\ (live (log Stub.w1) = [1000] -> live (log w') = held obj').
Proof.
  split; [reflexivity|].
  apply (load_data_releases_held_handle_first Stub.loaded Stub.w1 1000).
  reflexivity.
Defined.

Lemma hmc_nuts_without_data_witness :
  StateEmpty Stub.fresh
  /\ call (hmc_nuts [("warmup", VInt 10); ("samples", VInt 10)]) Stub.fresh Stub.w0
     = (Raise NoDataLoaded, Stub.fresh, Stub.w0).
Proof.
  split; [reflexivity|].
  apply (hmc_nuts_without_data Stub.fresh Stub.w0). reflexivity.
Defined.

Lemma load_data_native_failure_message_witness :
  stosh_load_model (_lib Stub.loaded) "noseed.json" (Ctypes.c_uint 7)
    Ctypes.buffer_capacity (released Stub.loaded Stub.w1)
  = ((0, "seed required" ++ Stub.nul), 1%nat)
  /\ exists w',
       call (load_data (DataPath "noseed.json") 7) Stub.loaded Stub.w1 =
         (Raise (mkExn StoshError "Failed to load data: seed required"),
          with_handle Stub.loaded None, w')
       /\ native w' = 1%nat
       /\ DataLoadFailed "seed required" = mkExn StoshError "Failed to load data: seed required"
       /\ StateEmpty (with_handle Stub.loaded None).
Proof.
  split; [reflexivity|].
  apply (load_data_native_failure_message Stub.loaded Stub.w1 (DataPath "noseed.json") 7
           ("seed required" ++ Stub.nul) 1%nat).
  - intros d H. discriminate H.
  - reflexivity.
  - vm_compute. reflexivity.
Defined.

Lemma hmc_nuts_empty_parameters_witness :
  _model_handle Stub.loaded = Some 1000
  /\ exists r,
       call (hmc_nuts []) Stub.loaded Stub.w1 =
         (r, Stub.loaded,
          {| fs := fs Stub.w1; native := 1%nat;
             log := (log Stub.w1 ++ [CallRunSamplers 1000 None None 0
                                      Ctypes.buffer_capacity Ctypes.buffer_capacity 0])%list |})
       /\ (0 = 0 ->
           forall dir, Utf8.decode (Ctypes.value Ctypes.buffer_capacity ("/tmp/out" ++ Stub.nul))
                       = inl dir ->
                       r = Ok [("output_dir", dir)]).
Proof.
  split; [reflexivity|].
  apply (hmc_nuts_empty_parameters Stub.loaded Stub.w1 1000 0 ("/tmp/out" ++ Stub.nul) "" 1%nat);
    reflexivity.
Defined.

Lemma load_data_dict_rejected_after_release_witness :
  _model_handle Stub.loaded = Some 1000
  /\ call (load_data (DataDict [("N", VInt 10)]) 1) Stub.loaded Stub.w1 =
       (Raise UnsupportedInput,
        with_handle Stub.loaded None,
        {| fs := fs Stub.w1;
           native := stosh_free_model (_lib Stub.loaded) 1000 (native Stub.w1);
           log := (log Stub.w1 ++ [CallFreeModel 1000])%list |}).
Proof.
  split; [reflexivity|].
  apply (load_data_dict_rejected_after_release Stub.loaded Stub.w1 1000). reflexivity.
Defined.

Lemma compile_reuses_fresh_artifact_witness :
  fs (Stub.world Stub.fs_fresh) !! Stub.stan_file = Some 20
  /\ fs (Stub.world Stub.fs_fresh) !! Stub.so_file = Some 25
  /\ compile (Stub.os ["stan"]) "examples/bernoulli.stan" false (Stub.world Stub.fs_fresh)
     = (Ok {| _so_path := "/stan/examples/bernoulli_model.so";
              _lib := Stub.lib; _model_handle := None |},
        {| fs := Stub.fs_fresh; native := 0%nat;
           log := [Print "Using existing compiled model: /stan/examples/bernoulli_model.so";
                   LoadLibrary "/stan/examples/bernoulli_model.so"] |}).
Proof.
  split; [vm_compute; reflexivity|]. split; [vm_compute; reflexivity|].
  destruct (compile_reuses_fresh_artifact (Stub.os ["stan"]) "examples/bernoulli.stan"
              (Stub.world Stub.fs_fresh) 20 25)
    as (_ & _ & Hok & _).
  - vm_compute; reflexivity.
  - vm_compute; reflexivity.
  - vm_compute; reflexivity.
  - vm_compute; reflexivity.
  - lia.
  - apply (Hok Stub.lib).
    + vm_compute; reflexivity.
    + intros sym _. reflexivity.
Defined.

(** C4, as the claim states it: with a valid source and a strictly newer
    artifact, [compile] without [force] would return the existing
    artifact.  Without the makefile it raises although the artifact is
    fresh, and with the makefile it raises when the artifact does not
    load. *)
Lemma compile_fresh_artifact_may_not_return :
  (fresh (<[Stub.so_file := 25]> (<[Stub.stan_file := 20]> ∅)) Stub.stan_file = true
   /\ Path.suffix Stub.stan_file = ".stan"
   /\ compile (Stub.os ["stan"]) "examples/bernoulli.stan" false
        (Stub.world (<[Stub.so_file := 25]> (<[Stub.stan_file := 20]> ∅)))
      = (Raise (mkExn StoshError "Makefile not found at: /stan/makefile"),
         Stub.world (<[Stub.so_file := 25]> (<[Stub.stan_file := 20]> ∅))))
  /\ (fresh Stub.fs_fresh Stub.stan_file = true
      /\ fst (compile (StubMore.os_with Stub.make (fun _ _ => inl "invalid ELF header") ["stan"])
                "examples/bernoulli.stan" false (Stub.world Stub.fs_fresh))
         = Raise (mkExn StoshError "Failed to load compiled model: invalid ELF header")).
Proof.
  split; [split; [|split]|split]; vm_compute; reflexivity.
Qed.

Lemma compile_build_failure_carries_output_witness :
  valid_request (Stub.os ["home"]) "/stan/models/eight.stan" (Stub.world Stub.fs_other)
  /\ exists text w',
       compile (Stub.os ["home"]) "/stan/models/eight.stan" false (Stub.world Stub.fs_other)
       = (Raise (mkExn StoshError text), w')
       /\ text = build_failed_text ["make"; "models/eight_model.so"] ["stan"]
                   "make: Entering directory" "make: *** No rule to make target".
Proof.
  assert (Hv : valid_request (Stub.os ["home"]) "/stan/models/eight.stan"
                 (Stub.world Stub.fs_other))
    by (repeat split; vm_compute; reflexivity).
  split; [exact Hv|].
  destruct (compile_build_failure_carries_output (Stub.os ["home"]) "/stan/models/eight.stan"
              false (Stub.world Stub.fs_other) 2
              "make: Entering directory" "make: *** No rule to make target" Stub.fs_other Hv)
    as (text & w' & Hc & Ht & _).
  - vm_compute; reflexivity.
  - vm_compute; reflexivity.
  - discriminate.
  - exists text, w'. split; [exact Hc|]. rewrite Ht. vm_compute. reflexivity.
Defined.

Lemma make_target_precedence_witness :
  valid_request (Stub.os ["stan"; "examples"]) "bernoulli.stan" (Stub.world Stub.fs_stale)
  /\ fst (make_target ["stan"] ["stan"; "examples"] Stub.stan_file)
     = Path.rel_to_str ["examples"; "bernoulli_model.so"]
  /\ exists r w' before after,
       compile (Stub.os ["stan"; "examples"]) "bernoulli.stan" false (Stub.world Stub.fs_stale)
       = (r, w')
       /\ log w' = (before ++ RunProcess ["make"; "examples/bernoulli_model.so"] ["stan"]
                           :: after)%list
       /\ List.filter is_run_process before = []
       /\ List.filter is_run_process after = [].
Proof.
  assert (Hv : valid_request (Stub.os ["stan"; "examples"]) "bernoulli.stan"
                 (Stub.world Stub.fs_stale))
    by (repeat split; vm_compute; reflexivity).
  split; [exact Hv|].
  destruct (make_target_precedence (Stub.os ["stan"; "examples"]) "bernoulli.stan" false
              (Stub.world Stub.fs_stale) Hv)
    as (Hunder & _ & _ & Hrun).
  - vm_compute; reflexivity.
  - split.
    + destruct Hunder as (rel & Hrel & Ht).
      * vm_compute. eexists; reflexivity.
      * vm_compute. discriminate.
      * vm_compute in Hrel. inversion Hrel; subst. exact Ht.
    + exact Hrun.
Defined.

(** C3, as the claim states it: the message would be the native text alone.
    On the stub, [load_model] returns null with [seed required] in the
    buffer, and the message of the error that [load_data] raises is a
    different text. *)
Lemma load_data_message_not_bare_native_text :
  exists e obj' w',
    stosh_load_model Stub.lib "noseed.json" (Ctypes.c_uint 1) Ctypes.buffer_capacity 0%nat
    = ((0, "seed required" ++ Stub.nul), 0%nat)
    /\ Ctypes.value Ctypes.buffer_capacity ("seed required" ++ Stub.nul) = "seed required"
    /\ call (load_data (DataPath "noseed.json") 1) Stub.fresh Stub.w0 = (Raise e, obj', w')
    /\ exn_str e <> "seed required".
Proof.
  eexists _, _, _. split; [reflexivity|]. split; [vm_compute; reflexivity|].
  split; [vm_compute; reflexivity|]. cbn [exn_str]. discriminate.
Qed.

(** C9, as the claim states it: the empty parameter set would marshal to a
    pair of zero-length arrays.  It marshals to a pair of null pointers,
    which is what the native call receives. *)
Lemma empty_parameters_not_zero_length_arrays :
  _kwargs_to_c_arrays [] <> (Some [], Some [])
  /\ log (snd (call (hmc_nuts []) Stub.loaded Stub.w1))
     <> (log Stub.w1 ++ [CallRunSamplers 1000 (Some []) (Some []) 0
                          Ctypes.buffer_capacity Ctypes.buffer_capacity 0])%list.
Proof.
  split; [discriminate|]. vm_compute. discriminate.
Qed.

(** * Further properties *)

(** ** Sessions over time *)

Section SessionScriptFacts.
Context {N : Type}.
Implicit Types (f : @Frame N).

Ltac unfold_method :=
  cbv beta iota zeta delta
    [call load_data hmc_nuts name __exit__ __del__ __enter__ bind get_self call_free_model
     call_load_model call_run_samplers call_get_model_name native_step set_model_handle modify
     raise ret decode_utf8];
  cbn [self world fs native log _lib _model_handle _so_path fst snd].

Lemma uses_live_app evs1 evs2 acc :
  uses_live (evs1 ++ evs2) acc = uses_live evs1 acc && uses_live evs2 (live_after evs1 acc).
Proof.
  revert acc. induction evs1 as [|ev evs1 IH]; intros acc; [reflexivity|].
  destruct ev; cbn [app uses_live live_after]; rewrite ?IH, ?andb_assoc; reflexivity.
Qed.

(** What a call may add to a consistent log while holding [held]: the
    resulting frame is again consistent. *)
Lemma consistent_extend f (obj' : @CompiledModel N) fs' n' evs :
  consistent f ->
  live_after evs (held (self f)) = held obj' ->
  uses_live evs (held (self f)) = true ->
  (forall h, _model_handle obj' = Some h -> h <> 0) ->
  consistent {| self := obj';
                world := {| fs := fs'; native := n'; log := (log (world f) ++ evs)%list |} |}.
Proof.
  intros (Hl & Hu & Hnz) Hl' Hu' Hnz'. unfold consistent. cbn [self world log].
  split; [|split]; [| |exact Hnz'].
  - unfold live in *. rewrite live_after_app, Hl. exact Hl'.
  - rewrite uses_live_app, Hu. unfold live in Hl. rewrite Hl. exact Hu'.
Qed.

Lemma is_live_single (h : Z) : (if in_dec Z.eq_dec h [h] then true else false) = true.
Proof. destruct (in_dec Z.eq_dec h [h]) as [|Hn]; [reflexivity|]. exfalso. apply Hn. left. reflexivity. Qed.

Lemma remove_single' (h : Z) : List.remove Z.eq_dec h [h] = [].
Proof. simpl. destruct (Z.eq_dec h h); congruence. Qed.

Lemma void_p_nonzero p h : Ctypes.void_p_result p = Some h -> h <> 0.
Proof.
  unfold Ctypes.void_p_result. destruct (p =? 0) eqn:E; [discriminate|].
  intros H; inversion H; subst. apply Z.eqb_neq. exact E.
Qed.

Lemma held_void_p (obj : @CompiledModel N) p :
  held (with_handle obj (Ctypes.void_p_result p)) = if p =? 0 then [] else [p].
Proof. unfold held, Ctypes.void_p_result. cbn. destruct (p =? 0); reflexivity. Qed.

Lemma consistent_same f f' :
  consistent f -> self f' = self f -> log (world f') = log (world f) -> consistent f'.
Proof. unfold consistent. intros H Hs Hl. rewrite Hs, Hl. exact H. Qed.

Ltac destruct_native :=
  match goal with
  | |- context [stosh_load_model ?l ?d ?s ?c ?n] =>
      destruct (stosh_load_model l d s c n) as [[?ptr ?written] ?n'] eqn:?
  | |- context [stosh_run_samplers ?l ?h ?k ?v ?c ?a ?b ?n] =>
      destruct (stosh_run_samplers l h k v c a b n) as [[[?status ?out] ?err] ?n'] eqn:?
  | |- context [stosh_get_model_name ?l ?h ?n] =>
      destruct (stosh_get_model_name l h n) as [?name_ptr ?n'] eqn:?
  end; unfold_method.

Lemma consistent_reload (obj : @CompiledModel N) w h d s c p fs' n' :
  consistent {| self := obj; world := w |} ->
  _model_handle obj = Some h ->
  consistent
    {| self := with_handle obj (Ctypes.void_p_result p);
       world := {| fs := fs'; native := n';
                   log := (log w ++ [CallFreeModel h; CallLoadModel d s c p])%list |} |}.
Proof.
  intros Hc Hh.
  assert (Hheld : held obj = [h]) by (unfold held; rewrite Hh; reflexivity).
  apply (consistent_extend {| self := obj; world := w |} _ _ _ _ Hc); cbn [self].
  - rewrite Hheld, held_void_p. cbn [live_after]. rewrite remove_single'. reflexivity.
  - rewrite Hheld. cbn [uses_live]. rewrite is_live_single. reflexivity.
  - cbn [with_handle _model_handle]. apply void_p_nonzero.
Qed.

Lemma consistent_first_load (obj : @CompiledModel N) w d s c p fs' n' :
  consistent {| self := obj; world := w |} ->
  _model_handle obj = None ->
  consistent
    {| self := with_handle obj (Ctypes.void_p_result p);
       world := {| fs := fs'; native := n';
                   log := (log w ++ [CallLoadModel d s c p])%list |} |}.
Proof.
  intros Hc Hh.
  assert (Hheld : held obj = []) by (unfold held; rewrite Hh; reflexivity).
  apply (consistent_extend {| self := obj; world := w |} _ _ _ _ Hc); cbn [self].
  - rewrite Hheld, held_void_p. reflexivity.
  - rewrite Hheld. reflexivity.
  - cbn [with_handle _model_handle]. apply void_p_nonzero.
Qed.

Lemma load_data_consistent data seed f :
  consistent f -> consistent (snd (load_data data seed f)).
Proof.
  intros Hc. destruct f as [obj w]. unfold_method.
  destruct (_model_handle obj) as [h|] eqn:Hh; unfold_method.
  - destruct data as [|p|d]; unfold_method.
    3: { cbn [snd].
         assert (Hheld : held obj = [h]) by (unfold held; rewrite Hh; reflexivity).
         apply (consistent_extend _ _ _ _ [CallFreeModel h] Hc); cbn [self].
         - rewrite Hheld. cbn [live_after]. rewrite remove_single'. reflexivity.
         - rewrite Hheld. cbn [uses_live]. rewrite is_live_single. reflexivity.
         - intros h' H; discriminate H. }
    all: destruct_native; rewrite <- app_assoc; cbn [app].
    all: destruct (negb (handle_truthy (Ctypes.void_p_result ptr)));
         [destruct (Utf8.decode _)|]; cbn [snd]; apply (consistent_reload _ _ _ _ _ _ _ _ _ Hc Hh).
  - destruct data as [|p|d]; unfold_method.
    3: { cbn [snd]. exact Hc. }
    all: destruct_native.
    all: destruct (negb (handle_truthy (Ctypes.void_p_result ptr)));
         [destruct (Utf8.decode _)|]; cbn [snd]; apply (consistent_first_load _ _ _ _ _ _ _ _ Hc Hh).
Qed.

Lemma hmc_nuts_consistent kwargs f :
  consistent f -> consistent (snd (hmc_nuts kwargs f)).
Proof.
  intros Hc. destruct f as [obj w]. unfold_method.
  destruct (_model_handle obj) as [h|] eqn:Hh; unfold_method; [|exact Hc].
  destruct (_kwargs_to_c_arrays kwargs) as [keys values].
  destruct_native.
  assert (Hheld : held obj = [h]) by (unfold held; rewrite Hh; reflexivity).
  assert (Hgoal : consistent
    {| self := obj;
       world := {| fs := fs w; native := n';
                   log := (log w ++ [CallRunSamplers h keys values (Z.of_nat (List.length kwargs))
                                       Ctypes.buffer_capacity Ctypes.buffer_capacity status])%list |} |}).
  { apply (consistent_extend {| self := obj; world := w |} _ _ _ _ Hc); cbn [self].
    - rewrite Hheld. reflexivity.
    - rewrite Hheld. cbn [uses_live]. rewrite is_live_single. reflexivity.
    - destruct Hc as (_ & _ & Hnz). exact Hnz. }
  destruct (negb (status =? 0)); destruct (Utf8.decode _); cbn [snd]; exact Hgoal.
Qed.

Lemma name_consistent f : consistent f -> consistent (snd (name f)).
Proof.
  intros Hc. destruct f as [obj w]. unfold_method.
  destruct (_model_handle obj) as [h|] eqn:Hh; unfold_method; [|exact Hc].
  destruct (handle_truthy (Some h) && has_get_model_name (_lib obj)); unfold_method; [|exact Hc].
  destruct_native.
  assert (Hheld : held obj = [h]) by (unfold held; rewrite Hh; reflexivity).
  assert (Hgoal : consistent
    {| self := obj;
       world := {| fs := fs w; native := n';
                   log := (log w ++ [CallGetModelName h])%list |} |}).
  { apply (consistent_extend {| self := obj; world := w |} _ _ _ _ Hc); cbn [self].
    - rewrite Hheld. reflexivity.
    - rewrite Hheld. cbn [uses_live]. rewrite is_live_single. reflexivity.
    - destruct Hc as (_ & _ & Hnz). exact Hnz. }
  destruct name_ptr as [b|]; [destruct (negb (String.eqb b "")); [destruct (Utf8.decode _)|]|];
    cbn [snd]; exact Hgoal.
Qed.

Lemma exit_consistent f :
  consistent f ->
  consistent (snd (__exit__ f))
  /\ StateEmpty (self (snd (__exit__ f)))
  /\ live (log (world (snd (__exit__ f)))) = [].
Proof.
  intros Hc. destruct f as [obj w]. pose proof Hc as (Hl & Hu & Hnz). cbn [self world] in *.
  unfold_method. unfold StateEmpty.
  destruct (_model_handle obj) as [h|] eqn:Hh; unfold_method.
  - cbn [handle_truthy]. specialize (Hnz h eq_refl). apply Z.eqb_neq in Hnz. rewrite Hnz.
    cbn [negb]. unfold_method.
    assert (Hheld : held obj = [h]) by (unfold held; rewrite Hh; reflexivity).
    assert (Hgoal : consistent
      {| self := with_handle obj None;
         world := {| fs := fs w; native := stosh_free_model (_lib obj) h (native w);
                     log := (log w ++ [CallFreeModel h])%list |} |}).
    { apply (consistent_extend {| self := obj; world := w |} _ _ _ _ Hc); cbn [self].
      - rewrite Hheld. cbn [live_after]. rewrite remove_single'. reflexivity.
      - rewrite Hheld. cbn [uses_live]. rewrite is_live_single. reflexivity.
      - intros h' H; discriminate H. }
    split; [exact Hgoal|]. split; [reflexivity|].
    destruct Hgoal as (Hl' & _). exact Hl'.
  - split; [exact Hc|]. split; [exact Hh|]. rewrite Hl. unfold held. rewrite Hh. reflexivity.
Qed.

Lemma step_consistent op f : consistent f -> consistent (step op f).
Proof.
  intros Hc. destruct op; cbn [step].
  - apply load_data_consistent, Hc.
  - apply hmc_nuts_consistent, Hc.
  - apply name_consistent, Hc.
  - exact Hc.
  - apply exit_consistent, Hc.
Qed.

Lemma perform_consistent ops f : consistent f -> consistent (perform ops f).
Proof.
  revert f. induction ops as [|op ops IH]; intros f Hc; [exact Hc|].
  cbn [perform fold_left]. apply IH, step_consistent, Hc.
Qed.


Lemma del_after_consistent f :
  consistent f ->
  live (log (world (snd (__del__ f)))) = []
  /\ uses_live (log (world (snd (__del__ f)))) [] = true.
Proof.
  intros Hc. destruct f as [obj w]. pose proof Hc as (Hl & Hu & Hnz). cbn [self world] in *.
  unfold_method.
  destruct (_model_handle obj) as [h|] eqn:Hh; unfold_method.
  - cbn [handle_truthy]. specialize (Hnz h eq_refl). apply Z.eqb_neq in Hnz. rewrite Hnz.
    cbn [negb]. unfold_method. cbn [snd world log].
    assert (Hheld : held obj = [h]) by (unfold held; rewrite Hh; reflexivity).
    unfold live in *. rewrite live_after_app, uses_live_app, Hl, Hu, Hheld.
    cbn [live_after uses_live]. rewrite remove_single', is_live_single. split; reflexivity.
  - cbn [snd world]. rewrite Hl. unfold held. rewrite Hh. split; [reflexivity|exact Hu].
Qed.

(** X1. Whatever sequence of [load_data], [hmc_nuts], [name], [__enter__]
    and [__exit__] calls a caller makes on a session, catching what they
    raise, the live native handles stay exactly the handle the session
    holds (so at most one), that handle is not null, and every handle ever
    passed to the native side was live at that moment: no use after free
    and no second free. *)
Theorem session_script_keeps_single_live_handle (ops : list Op) f :
  consistent f ->
  let f' := perform ops f in
  live (log (world f')) = held (self f')
  /\ (List.length (live (log (world f'))) <= 1)%nat
  /\ uses_live (log (world f')) [] = true
  /\ (forall h, _model_handle (self f') = Some h -> h <> 0).
Proof.
  intros Hc f'. destruct (perform_consistent ops f Hc) as (Hl & Hu & Hnz). fold f' in Hl, Hu, Hnz.
  split; [exact Hl|]. split; [|split; [exact Hu|exact Hnz]].
  rewrite Hl. unfold held. destruct (_model_handle (self f')); cbn; lia.
Qed.

(** X2. After any such sequence of calls the finalizer [__del__] leaves no
    native handle live, and it passes only a live handle to [free_model]. *)
Theorem finalizer_releases_held_handle (ops : list Op) f :
  consistent f ->
  let f' := snd (__del__ (perform ops f)) in
  live (log (world f')) = [] /\ uses_live (log (world f')) [] = true.
Proof. intros Hc f'. apply del_after_consistent, perform_consistent, Hc. Qed.

Lemma exit_returns f : fst (__exit__ f) = Ok tt.
Proof.
  destruct f as [obj w]. unfold_method.
  destruct (_model_handle obj) as [h|]; unfold_method; [|reflexivity].
  cbn [handle_truthy]. destruct (negb (h =? 0)); reflexivity.
Qed.

(** X3. [__exit__] never raises, and the finalizer run after it changes
    nothing: leaving a [with] block and then collecting the object frees
    the handle once. *)
Theorem del_after_exit_is_noop f :
  snd (__del__ (snd (__exit__ f))) = snd (__exit__ f)
  /\ fst (__exit__ f) = Ok tt.
Proof.
  destruct f as [obj w]. unfold_method.
  destruct (_model_handle obj) as [h|] eqn:Hh; unfold_method.
  - cbn [handle_truthy]. destruct (negb (h =? 0)) eqn:E; unfold_method.
    + split; reflexivity.
    + rewrite Hh. cbn [handle_truthy]. rewrite E. split; reflexivity.
  - rewrite Hh. split; reflexivity.
Qed.

(** X4. A [with] block hands on the result or the exception of its body,
    and when the body keeps the session consistent the block ends with the
    session empty and no handle live, whether the body returned or raised. *)
Theorem with_block_releases {A} (body : @Method N A) f :
  (forall f0, consistent f0 -> consistent (snd (body f0))) ->
  consistent f ->
  fst (with_block body f) = fst (body f)
  /\ StateEmpty (self (snd (with_block body f)))
  /\ live (log (world (snd (with_block body f)))) = []
  /\ uses_live (log (world (snd (with_block body f)))) [] = true.
Proof.
  intros Hbody Hc. unfold with_block.
  change (__enter__ f) with (Ok (self f), f). cbn iota beta.
  specialize (Hbody f Hc). destruct (body f) as [r f1]. cbn [fst snd] in *.
  destruct (exit_consistent f1 Hbody) as (Hc2 & He & Hl).
  pose proof (exit_returns f1) as Hok.
  destruct (__exit__ f1) as [[u|e] f2]; cbn [fst snd] in *; [|discriminate Hok].
  split; [reflexivity|]. split; [exact He|]. split; [exact Hl|]. apply Hc2.
Qed.

End SessionScriptFacts.

(** ** Single calls *)

Lemma scan_ascii (bs : list nat) pos :
  forallb (fun b => Nat.ltb b 128) bs = true -> Utf8.scan pos bs = None.
Proof.
  revert pos. induction bs as [|b bs IH]; intros pos H; [reflexivity|].
  cbn [forallb] in H. apply andb_prop in H as [Hb Hbs].
  cbn [Utf8.scan]. rewrite Hb. apply IH, Hbs.
Qed.

Lemma decode_ascii (s : string) : is_ascii s = true -> Utf8.decode s = inl s.
Proof.
  intros H. unfold Utf8.decode, Utf8.bytes_of. rewrite scan_ascii; [reflexivity|].
  unfold is_ascii in H. revert H. generalize (list_ascii_of_string s).
  intros l; induction l as [|a l IH]; [reflexivity|]. cbn [forallb List.map].
  intros H. apply andb_prop in H as [Ha Hl]. rewrite Ha, (IH Hl). reflexivity.
Qed.

Lemma c_string_length (b : string) : (String.length (Str.c_string b) <= String.length b)%nat.
Proof.
  induction b as [|a b IH]; [reflexivity|]. cbn [Str.c_string].
  destruct (Ascii.eqb a zero); cbn [String.length]; lia.
Qed.

Lemma substring_length_le (n : nat) (s : string) : (String.length (String.substring 0 n s) <= n)%nat.
Proof.
  revert s. induction n as [|n IH]; intros s.
  - destruct s; cbn; lia.
  - destruct s as [|a s]; cbn [String.substring String.length]; [lia|]. specialize (IH s). lia.
Qed.

Lemma value_length (cap : nat) (written : string) :
  (String.length (Ctypes.value cap written) <= cap)%nat.
Proof.
  unfold Ctypes.value. etransitivity; [apply c_string_length|apply substring_length_le].
Qed.

Lemma app_length_str (a b : string) :
  String.length (a ++ b) = (String.length a + String.length b)%nat.
Proof.
  induction a as [|x a IH]; [reflexivity|].
  change (S (String.length (a ++ b)) = S (String.length a + String.length b)).
  f_equal. exact IH.
Qed.

Section SessionCalls.
Context {N : Type}.
Implicit Types (obj : @CompiledModel N) (w : @World N).

Ltac unfold_method :=
  cbv beta iota zeta delta
    [call load_data hmc_nuts name __exit__ __del__ __enter__ bind get_self call_free_model
     call_load_model call_run_samplers call_get_model_name native_step set_model_handle modify
     raise ret decode_utf8];
  cbn [self world fs native log _lib _model_handle _so_path fst snd].

(** X5. On a session that holds a handle, [hmc_nuts] makes exactly one
    native call, [run_samplers] on that handle with the marshalled arrays
    and the number of parameters, and leaves the object as it was, whatever
    the outcome; a non-zero status always ends in an exception, and the
    handle is kept. *)
Theorem hmc_nuts_keeps_session obj w h kwargs :
  _model_handle obj = Some h ->
  exists r status w',
    call (hmc_nuts kwargs) obj w = (r, obj, w')
    /\ log w' = (log w ++ [CallRunSamplers h (fst (_kwargs_to_c_arrays kwargs))
                            (snd (_kwargs_to_c_arrays kwargs))
                            (Z.of_nat (List.length kwargs))
                            Ctypes.buffer_capacity Ctypes.buffer_capacity status])%list
    /\ (status <> 0 -> exists e, r = Raise e).
Proof.
  intros Hh. unfold_method. rewrite Hh.
  destruct (_kwargs_to_c_arrays kwargs) as [keys values]. unfold_method.
  match goal with
  | |- context [stosh_run_samplers ?l ?h ?k ?v ?c ?a ?b ?n] =>
      destruct (stosh_run_samplers l h k v c a b n) as [[[status out] err] n'] eqn:Hrun
  end. unfold_method.
  destruct (status =? 0) eqn:Es; cbn [negb].
  - destruct (Utf8.decode (Ctypes.value Ctypes.buffer_capacity out));
      (eexists _, status, _; split; [destruct obj; reflexivity|]);
      (split; [reflexivity|]);
      intros Hs; apply Z.eqb_eq in Es; contradiction.
  - destruct (Utf8.decode (Ctypes.value Ctypes.buffer_capacity err));
      (eexists _, status, _; split; [destruct obj; reflexivity|]);
      (split; [reflexivity|]);
      intros _; eexists; reflexivity.
Qed.

(** X6. When [run_samplers] returns a non-zero status and leaves an ASCII
    text in the error buffer, [hmc_nuts] raises a [StoshError] whose message
    is [Sampling failed: ] followed by that text, and the session keeps its
    handle. *)
Theorem hmc_nuts_failure_text obj w h kwargs status out err n' text :
  _model_handle obj = Some h ->
  stosh_run_samplers (_lib obj) h (fst (_kwargs_to_c_arrays kwargs))
    (snd (_kwargs_to_c_arrays kwargs)) (Z.of_nat (List.length kwargs))
    Ctypes.buffer_capacity Ctypes.buffer_capacity (native w) = ((status, out, err), n') ->
  status <> 0 ->
  Ctypes.value Ctypes.buffer_capacity err = text ->
  is_ascii text = true ->
  exists w',
    call (hmc_nuts kwargs) obj w
    = (Raise (mkExn StoshError ("Sampling failed: " ++ text)), obj, w').
Proof.
  intros Hh Hrun Hs Hval Hascii. unfold_method. rewrite Hh.
  destruct (_kwargs_to_c_arrays kwargs) as [keys values]. cbn [fst snd] in Hrun. unfold_method.
  rewrite Hrun. unfold_method. apply Z.eqb_neq in Hs. rewrite Hs. cbn [negb].
  rewrite Hval, (decode_ascii _ Hascii). eexists. destruct obj; reflexivity.
Qed.


(** X7. For a non-empty dict of parameters, [run_samplers] receives the
    keys in insertion order, the values as their texts in the same order,
    and the number of parameters as the count. *)
Theorem hmc_nuts_passes_parameters_in_order obj w h kwargs :
  _model_handle obj = Some h ->
  Dict.wf kwargs ->
  kwargs <> [] ->
  exists r status w',
    call (hmc_nuts kwargs) obj w = (r, obj, w')
    /\ log w' = (log w ++ [CallRunSamplers h
                            (Some (List.map (fun kv => Some (fst kv)) kwargs))
                            (Some (List.map (fun kv => Some (_value_to_string (snd kv))) kwargs))
                            (Z.of_nat (List.length kwargs))
                            Ctypes.buffer_capacity Ctypes.buffer_capacity status])%list.
Proof.
  intros Hh Hwf Hne. unfold_method. rewrite Hh.
  rewrite (kwargs_to_c_arrays_wf kwargs Hwf Hne). unfold arrays_of. cbn [fst snd]. unfold_method.
  match goal with
  | |- context [stosh_run_samplers ?l ?h ?k ?v ?c ?a ?b ?n] =>
      destruct (stosh_run_samplers l h k v c a b n) as [[[status out] err] n'] eqn:Hrun
  end. unfold_method.
  destruct (negb (status =? 0)); destruct (Utf8.decode _);
    (eexists _, status, _; split; [destruct obj; reflexivity|]); reflexivity.
Qed.


(** X9. For a path or no data, [load_data] returns normally exactly when
    [load_model] returns a non-null pointer; the session then holds that
    pointer, and it holds nothing otherwise.  What the native side wrote to
    the error buffer plays no part in this. *)
Theorem load_data_succeeds_iff_nonnull obj w data seed p written n' :
  (forall d, data <> DataDict d) ->
  stosh_load_model (_lib obj) (Utf8.encode (data_path data))
    (Ctypes.c_uint seed) Ctypes.buffer_capacity (released obj w) = ((p, written), n') ->
  exists r obj' w',
    call (load_data data seed) obj w = (r, obj', w')
    /\ (r = Ok tt <-> p <> 0)
    /\ _model_handle obj' = (if p =? 0 then None else Some p)
    /\ native w' = n'.
Proof.
  intros Hd Hload. unfold released, data_path in Hload. unfold_method.
  destruct (_model_handle obj) as [h|]; unfold_method;
    (destruct data as [|path|d]; [| |exfalso; eapply Hd; reflexivity]); unfold_method;
    rewrite Hload; unfold_method; rewrite handle_truthy_void_p, negb_involutive;
    unfold Ctypes.void_p_result;
    (destruct (p =? 0) eqn:Ep;
     [ apply Z.eqb_eq in Ep; destruct (Utf8.decode _);
       (eexists _, _, _; split; [reflexivity|]); cbn [_model_handle native];
       (split; [split; [intros H; discriminate H | intros H; contradiction]|]);
       split; reflexivity
     | apply Z.eqb_neq in Ep;
       (eexists _, _, _; split; [reflexivity|]); cbn [_model_handle native];
       (split; [split; [intros _; exact Ep | reflexivity]|]);
       split; reflexivity ]).
Qed.

(** X10. When [load_model] returns null and the error buffer holds an ASCII
    text, [load_data] raises a [StoshError] whose message is
    [Failed to load data: ] followed by exactly that text; the message is
    at most 21 + 1024 bytes long, the buffer being 1024 bytes. *)
Theorem load_data_failure_text_verbatim obj w data seed written n' text :
  (forall d, data <> DataDict d) ->
  stosh_load_model (_lib obj) (Utf8.encode (data_path data))
    (Ctypes.c_uint seed) Ctypes.buffer_capacity (released obj w) = ((0, written), n') ->
  Ctypes.value Ctypes.buffer_capacity written = text ->
  is_ascii text = true ->
  exists w',
    call (load_data data seed) obj w
    = (Raise (DataLoadFailed text), with_handle obj None, w')
    /\ (String.length (exn_str (DataLoadFailed text)) <= 21 + 1024)%nat.
Proof.
  intros Hd Hload Hval Hascii. unfold released, data_path in Hload.
  assert (Hlen : (String.length (exn_str (DataLoadFailed text)) <= 21 + 1024)%nat).
  { unfold DataLoadFailed. cbn [exn_str]. rewrite app_length_str. rewrite <- Hval.
    pose proof (value_length Ctypes.buffer_capacity written) as Hv.
    change (String.length "Failed to load data: ") with 21%nat.
    unfold Ctypes.buffer_capacity in *. lia. }
  unfold_method.
  destruct (_model_handle obj) as [h|]; unfold_method;
    (destruct data as [|path|d]; [| |exfalso; eapply Hd; reflexivity]); unfold_method;
    rewrite Hload; unfold_method; rewrite Hval, (decode_ascii _ Hascii);
    eexists; (split; [reflexivity|exact Hlen]).
Qed.

(** X11. When [load_model] returns null and the error buffer does not hold
    well-formed UTF-8, [load_data] raises [UnicodeDecodeError], which an
    [except StoshError] clause does not catch; the session is left empty. *)
Theorem load_data_undecodable_error_text obj w data seed written n' msg :
  (forall d, data <> DataDict d) ->
  stosh_load_model (_lib obj) (Utf8.encode (data_path data))
    (Ctypes.c_uint seed) Ctypes.buffer_capacity (released obj w) = ((0, written), n') ->
  Utf8.decode (Ctypes.value Ctypes.buffer_capacity written) = inr msg ->
  exists w',
    call (load_data data seed) obj w
    = (Raise (mkExn UnicodeDecodeError msg), with_handle obj None, w')
    /\ catches StoshError UnicodeDecodeError = false.
Proof.
  intros Hd Hload Hdec. unfold released, data_path in Hload. unfold_method.
  destruct (_model_handle obj) as [h|]; unfold_method;
    (destruct data as [|path|d]; [| |exfalso; eapply Hd; reflexivity]); unfold_method;
    rewrite Hload; unfold_method; rewrite Hdec;
    eexists; (split; reflexivity).
Qed.

(** X12. The [name] property never changes the object or the file system
    and makes at most one native call, [get_model_name] on the held handle;
    without a handle, or when the library does not export the entry point,
    it returns [None] and calls nothing. *)
Theorem name_reads_without_changing obj w :
  exists r w',
    call name obj w = (r, obj, w')
    /\ fs w' = fs w
    /\ (log w' = log w \/
        exists h, _model_handle obj = Some h /\ log w' = (log w ++ [CallGetModelName h])%list)
    /\ (_model_handle obj = None \/ has_get_model_name (_lib obj) = false ->
        r = Ok None /\ w' = w).
Proof.
  unfold_method.
  destruct (_model_handle obj) as [h|] eqn:Hh; unfold_method.
  2: { eexists _, _. split; [destruct obj, w; cbn in *; subst; reflexivity|].
       split; [reflexivity|]. split; [left; reflexivity|]. intros _. split; reflexivity. }
  destruct (handle_truthy (Some h)) eqn:Ht; cbn [andb].
  2: { unfold_method. eexists _, _. split; [destruct obj, w; reflexivity|].
       split; [reflexivity|]. split; [left; reflexivity|]. intros _. split; reflexivity. }
  destruct (has_get_model_name (_lib obj)) eqn:Hs; unfold_method.
  2: { eexists _, _. split; [destruct obj, w; reflexivity|].
       split; [reflexivity|]. split; [left; reflexivity|]. intros _. split; reflexivity. }
  match goal with
  | |- context [stosh_get_model_name ?l ?h ?n] =>
      destruct (stosh_get_model_name l h n) as [name_ptr n'] eqn:Hn
  end. unfold_method.
  destruct name_ptr as [b|]; [destruct (negb (String.eqb b "")); [destruct (Utf8.decode _)|]|];
    (eexists _, _; split; [destruct obj; reflexivity|]); cbn [fs log];
    (split; [reflexivity|]); (split; [right; exists h; split; reflexivity|]);
    intros [H|H]; discriminate H.
Qed.

End SessionCalls.

Lemma lookup_map_Some {A B} (f : A -> B) (l : list A) (i : nat) (x : A) :
  l !! i = Some x -> List.map f l !! i = Some (f x).
Proof.
  revert i. induction l as [|y l IH]; intros [|i] H; try discriminate H.
  - inversion H; subst. reflexivity.
  - cbn. apply IH. exact H.
Qed.

(** X13. Marshalling a non-empty dict gives two arrays as long as the
    dict, and slot [i] of the keys and slot [i] of the values hold the key
    and the text of the value of the same item, the [i]-th of the dict. *)
Theorem marshal_parallel_arrays (kwargs : Dict.t PyValue) :
  Dict.wf kwargs ->
  kwargs <> [] ->
  exists keys values,
    _kwargs_to_c_arrays kwargs = (Some keys, Some values)
    /\ List.length keys = List.length kwargs
    /\ List.length values = List.length kwargs
    /\ (forall i key value,
          kwargs !! i = Some (key, value) ->
          keys !! i = Some (Some key)
          /\ values !! i = Some (Some (_value_to_string value))).
Proof.
  intros Hwf Hne. rewrite (kwargs_to_c_arrays_wf kwargs Hwf Hne). unfold arrays_of. cbn [fst snd].
  eexists _, _. split; [reflexivity|].
  rewrite !List.length_map. split; [reflexivity|]. split; [reflexivity|].
  intros i key value Hi.
  split; [apply (lookup_map_Some (fun kv => Some (fst kv)) _ _ _ Hi)
         |apply (lookup_map_Some (fun kv => Some (_value_to_string (snd kv))) _ _ _ Hi)].
Qed.

(** ** The resolver and the constructor *)

Section ResolverMore.
Context {N : Type}.
Implicit Types (os : @OS N) (w : @World N).

Ltac unfold_world :=
  cbv beta iota zeta delta
    [compile CompiledModel_init _load_library _setup_function_signatures
     bind get print emit modify raise ret run try_except world_log];
  cbn [fs native log fst snd].

Lemma compile_missing_source_eq os stan_file force w :
  exists_ (fs w) (resolve os stan_file) = false ->
  compile os stan_file force w
  = (Raise (mkExn StoshError ("Stan file does not exist: " ++ stan_file)), w).
Proof.
  intros H. unfold compile, bind at 1, get at 1. rewrite H. reflexivity.
Qed.

Lemma compile_wrong_extension_eq os stan_file force w :
  exists_ (fs w) (resolve os stan_file) = true ->
  Path.suffix (resolve os stan_file) <> ".stan" ->
  compile os stan_file force w
  = (Raise (mkExn StoshError ("File must have .stan extension: " ++ stan_file)), w).
Proof.
  intros He Hs. unfold compile, bind at 1, get at 1. rewrite He. cbn [negb].
  apply String.eqb_neq in Hs. rewrite Hs. reflexivity.
Qed.

Lemma compile_missing_makefile_eq os stan_file force w :
  exists_ (fs w) (resolve os stan_file) = true ->
  Path.suffix (resolve os stan_file) = ".stan" ->
  exists_ (fs w) (Path.child (find_makefile_dir os) "makefile") = false ->
  compile os stan_file force w
  = (Raise (mkExn StoshError
              ("Makefile not found at: "
               ++ Path.to_str (Path.child (find_makefile_dir os) "makefile"))), w).
Proof.
  intros He Hs Hm. unfold compile, bind at 1, get at 1. rewrite He, Hs, Hm. reflexivity.
Qed.

(** X14. When the resolved source path does not exist, [compile] raises
    [Stan file does not exist: ] followed by the argument as given, before
    any other check, and has no effect: nothing is printed, built or
    loaded. *)
Theorem compile_rejects_missing_source os stan_file force w :
  exists_ (fs w) (resolve os stan_file) = false ->
  compile os stan_file force w
  = (Raise (mkExn StoshError ("Stan file does not exist: " ++ stan_file)), w).
Proof.
  intros H. unfold compile, bind at 1, get at 1. rewrite H. reflexivity.
Qed.

(** X15. When the source exists and its suffix is not [.stan], [compile]
    raises [File must have .stan extension: ] followed by the argument as
    given and has no effect. *)
Theorem compile_rejects_wrong_extension os stan_file force w :
  exists_ (fs w) (resolve os stan_file) = true ->
  Path.suffix (resolve os stan_file) <> ".stan" ->
  compile os stan_file force w
  = (Raise (mkExn StoshError ("File must have .stan extension: " ++ stan_file)), w).
Proof.
  intros He Hs. unfold compile, bind at 1, get at 1. rewrite He. cbn [negb].
  apply String.eqb_neq in Hs. rewrite Hs. reflexivity.
Qed.

(** X16. When the source is valid and the makefile directory holds no
    [makefile], [compile] raises [Makefile not found at: ] followed by the
    path looked up, and has no effect; an existing fresh artifact is not
    used. *)
Theorem compile_requires_makefile os stan_file force w :
  exists_ (fs w) (resolve os stan_file) = true ->
  Path.suffix (resolve os stan_file) = ".stan" ->
  exists_ (fs w) (Path.child (find_makefile_dir os) "makefile") = false ->
  compile os stan_file force w
  = (Raise (mkExn StoshError
              ("Makefile not found at: "
               ++ Path.to_str (Path.child (find_makefile_dir os) "makefile"))), w).
Proof.
  intros He Hs Hm. unfold compile, bind at 1, get at 1. rewrite He, Hs, Hm. reflexivity.
Qed.

Lemma run_filter_announce os stan_file :
  List.filter is_run_process (announce os stan_file) = []
  /\ List.filter is_native_call (announce os stan_file) = [].
Proof. unfold announce. destruct (make_target _ _ _) as [t [line|]]; split; reflexivity. Qed.

(** The events and the native state of a build. *)
Lemma build_outcome_events os stan_file w :
  let cmd := ["make"; fst (make_target (find_makefile_dir os) (getcwd os) (resolve os stan_file))] in
  let so := Path.to_str (artifact_path (resolve os stan_file)) in
  exists after,
    log (snd (build_outcome os stan_file w))
    = (log w ++ announce os stan_file ++ RunProcess cmd (find_makefile_dir os) :: after)%list
    /\ (after = [] \/ after = [Print ("Compilation successful: " ++ so); LoadLibrary so])
    /\ native (snd (build_outcome os stan_file w)) = native w
    /\ fs (snd (build_outcome os stan_file w))
       = snd (subprocess_run os cmd (find_makefile_dir os) (fs w)).
Proof.
  intros cmd so. unfold build_outcome. fold cmd.
  destruct (subprocess_run os cmd (find_makefile_dir os) (fs w)) as [[e|rc out err] fs'].
  - exists []. cbn [snd log native fs]. repeat split; try reflexivity. left; reflexivity.
  - destruct (negb (rc =? 0)).
    { exists []. cbn [snd log native fs]. repeat split; try reflexivity. left; reflexivity. }
    destruct (negb (exists_ fs' _)).
    { exists []. cbn [snd log native fs]. repeat split; try reflexivity. left; reflexivity. }
    match goal with
    | |- context [CompiledModel_init ?o ?p ?w0] =>
        destruct (CompiledModel_init_effect o p w0) as (r & Hinit & _); rewrite Hinit
    end.
    eexists. split; [|split; [right; reflexivity|]].
    + destruct r; cbn [snd log world_log]; rewrite <- !app_assoc; reflexivity.
    + destruct r; cbn [snd world_log native fs]; split; reflexivity.
Qed.

(** X17. With [force=True] and a valid request, [compile] runs make once
    with the computed target in the makefile directory, whatever the state
    of the artifact. *)
Theorem compile_force_rebuilds os stan_file w :
  valid_request os stan_file w ->
  let cmd := ["make"; fst (make_target (find_makefile_dir os) (getcwd os) (resolve os stan_file))] in
  exists r w' after,
    compile os stan_file true w = (r, w')
    /\ log w' = (log w ++ announce os stan_file ++ RunProcess cmd (find_makefile_dir os) :: after)%list
    /\ List.filter is_run_process (announce os stan_file ++ after) = [].
Proof.
  intros Hv cmd. rewrite (compile_builds os stan_file true w Hv eq_refl).
  destruct (build_outcome_events os stan_file w) as (after & Hlog & Hafter & _).
  destruct (build_outcome os stan_file w) as [r w'] eqn:Ho. cbn [snd] in Hlog.
  exists r, w', after. split; [reflexivity|]. split; [exact Hlog|].
  rewrite List.filter_app, (proj1 (run_filter_announce os stan_file)).
  destruct Hafter as [->| ->]; reflexivity.
Qed.

(** X18. An artifact whose timestamp is equal to or older than the
    source's is not reused: [compile] runs make. *)
Theorem compile_rebuilds_unless_strictly_newer os stan_file w t_src t_so :
  valid_request os stan_file w ->
  fs w !! resolve os stan_file = Some t_src ->
  fs w !! artifact_path (resolve os stan_file) = Some t_so ->
  t_so <= t_src ->
  let cmd := ["make"; fst (make_target (find_makefile_dir os) (getcwd os) (resolve os stan_file))] in
  exists r w' after,
    compile os stan_file false w = (r, w')
    /\ log w' = (log w ++ announce os stan_file ++ RunProcess cmd (find_makefile_dir os) :: after)%list.
Proof.
  intros Hv Hsrc Hso Hle cmd.
  assert (Hb : negb false && fresh (fs w) (resolve os stan_file) = false).
  { cbn [negb andb]. unfold fresh, exists_, newer. rewrite Hso, Hsrc. cbn [andb].
    apply Z.ltb_ge. exact Hle. }
  rewrite (compile_builds os stan_file false w Hv Hb).
  destruct (build_outcome_events os stan_file w) as (after & Hlog & _).
  destruct (build_outcome os stan_file w) as [r w'] eqn:Ho. cbn [snd] in Hlog.
  exists r, w', after. split; [reflexivity|exact Hlog].
Qed.

(** X19. When make exits with status 0 and the artifact does not exist
    afterwards, [compile] raises [Compilation error: Compilation succeeded
    but output file not found: ] followed by the artifact path, and loads
    no library. *)
Theorem compile_artifact_missing_after_build os stan_file force w stdout stderr fs' :
  valid_request os stan_file w ->
  negb force && fresh (fs w) (resolve os stan_file) = false ->
  subprocess_run os
    ["make"; fst (make_target (find_makefile_dir os) (getcwd os) (resolve os stan_file))]
    (find_makefile_dir os) (fs w) = (Completed 0 stdout stderr, fs') ->
  exists_ fs' (artifact_path (resolve os stan_file)) = false ->
  exists w',
    compile os stan_file force w
    = (Raise (mkExn StoshError
                ("Compilation error: Compilation succeeded but output file not found: "
                 ++ Path.to_str (artifact_path (resolve os stan_file)))), w')
    /\ List.filter (fun ev => match ev with LoadLibrary _ => true | _ => false end) (log w')
       = List.filter (fun ev => match ev with LoadLibrary _ => true | _ => false end) (log w).
Proof.
  intros Hv Hb Hrun Hmiss. rewrite (compile_builds os stan_file force w Hv Hb).
  unfold build_outcome. rewrite Hrun, Hmiss. cbn [Z.eqb negb].
  eexists. split; [reflexivity|]. cbn [log]. rewrite !List.filter_app.
  unfold announce. destruct (make_target _ _ _) as [t [line|]]; cbn; rewrite app_nil_r; reflexivity.
Qed.

(** X20. When running make raises, [compile] raises a [StoshError]: the
    fixed text about a missing make for a [FileNotFoundError], and
    [Compilation error: ] followed by the text of the exception for any
    other. *)
Theorem compile_make_not_found os stan_file force w e fs' :
  valid_request os stan_file w ->
  negb force && fresh (fs w) (resolve os stan_file) = false ->
  subprocess_run os
    ["make"; fst (make_target (find_makefile_dir os) (getcwd os) (resolve os stan_file))]
    (find_makefile_dir os) (fs w) = (RunRaises e, fs') ->
  exists w',
    compile os stan_file force w
    = (Raise (mkExn StoshError
                (if catches FileNotFoundError (exn_class e)
                 then "Make command not found. Ensure GNU make is installed and in PATH."
                 else "Compilation error: " ++ exn_str e)), w').
Proof.
  intros Hv Hb Hrun. rewrite (compile_builds os stan_file force w Hv Hb).
  unfold build_outcome. rewrite Hrun. eexists. reflexivity.
Qed.

(** X21. When make exits with status 0, the artifact exists afterwards
    and the library loads with the three required entry points, [compile]
    returns a session on the artifact path that holds no handle; the file
    system is the one make left and the native state is untouched. *)
Theorem compile_build_success os stan_file force w stdout stderr fs' lib :
  valid_request os stan_file w ->
  negb force && fresh (fs w) (resolve os stan_file) = false ->
  subprocess_run os
    ["make"; fst (make_target (find_makefile_dir os) (getcwd os) (resolve os stan_file))]
    (find_makefile_dir os) (fs w) = (Completed 0 stdout stderr, fs') ->
  exists_ fs' (artifact_path (resolve os stan_file)) = true ->
  CDLL os (Path.to_str (artifact_path (resolve os stan_file))) fs' = inr lib ->
  (forall sym, In sym required_symbols -> symbol_error lib sym = None) ->
  exists w',
    compile os stan_file force w
    = (Ok {| _so_path := Path.to_str (artifact_path (resolve os stan_file));
             _lib := lib; _model_handle := None |}, w')
    /\ fs w' = fs' /\ native w' = native w.
Proof.
  intros Hv Hb Hrun Hex Hdl Hsym. rewrite (compile_builds os stan_file force w Hv Hb).
  unfold build_outcome. rewrite Hrun, Hex. cbn [Z.eqb negb].
  unfold_world. rewrite Hdl.
  rewrite (Hsym "stosh_load_model"), (Hsym "stosh_run_samplers"), (Hsym "stosh_free_model")
    by (cbn; auto).
  cbn. eexists. split; [reflexivity|]. split; reflexivity.
Qed.


(** X23. When a fresh artifact is reused and its library lacks a required
    entry point, [compile] raises [AttributeError], which an
    [except StoshError] clause does not catch. *)
Theorem compile_reuse_lets_attribute_error_escape os stan_file w lib sym msg :
  valid_request os stan_file w ->
  fresh (fs w) (resolve os stan_file) = true ->
  CDLL os (Path.to_str (artifact_path (resolve os stan_file))) (fs w) = inr lib ->
  In sym required_symbols ->
  symbol_error lib sym = Some msg ->
  exists msg' w',
    compile os stan_file false w = (Raise (mkExn AttributeError msg'), w')
    /\ catches StoshError AttributeError = false.
Proof.
  intros (Hsrc & Hsuf & Hmk) Hf Hdl Hin Hsym.
  unfold compile, bind at 1, get at 1. rewrite Hsrc, Hsuf, Hmk.
  cbn [negb String.eqb Ascii.eqb Bool.eqb].
  fold (artifact_path (resolve os stan_file)).
  unfold fresh in Hf. cbn [negb]. rewrite andb_true_l, Hf.
  unfold_world. rewrite Hdl.
  destruct (symbol_error lib "stosh_load_model") as [m1|] eqn:H1; unfold_world; cbn;
    [eexists _, _; split; reflexivity|].
  destruct (symbol_error lib "stosh_run_samplers") as [m2|] eqn:H2; unfold_world; cbn;
    [eexists _, _; split; reflexivity|].
  destruct (symbol_error lib "stosh_free_model") as [m3|] eqn:H3; unfold_world; cbn;
    [eexists _, _; split; reflexivity|].
  exfalso. cbn in Hin. destruct Hin as [<-|[<-|[<-|[]]]]; congruence.
Qed.

(** X24. When the loader refuses the library, constructing a
    [CompiledModel] raises a [StoshError] whose message is
    [Failed to load compiled model: ] followed by the loader's text; the
    only effect is the attempt to load. *)
Theorem library_load_failure_is_stosh_error os so_path w msg :
  CDLL os so_path (fs w) = inl msg ->
  CompiledModel_init os so_path w
  = (Raise (mkExn StoshError ("Failed to load compiled model: " ++ msg)),
     world_log [LoadLibrary so_path] w).
Proof. intros H. unfold_world. rewrite H. unfold_world. reflexivity. Qed.

(** X25. For every input, [compile] calls no native entry point and leaves
    the native state as it was, runs make at most once, and any session it
    returns holds no handle. *)
Theorem compile_leaves_native_side_untouched os stan_file force w :
  exists r w' evs,
    compile os stan_file force w = (r, w')
    /\ log w' = (log w ++ evs)%list
    /\ List.filter is_native_call evs = []
    /\ (List.length (List.filter is_run_process evs) <= 1)%nat
    /\ native w' = native w
    /\ (forall m, r = Ok m -> StateEmpty m).
Proof.
  destruct (exists_ (fs w) (resolve os stan_file)) eqn:Hsrc.
  2: { rewrite (compile_missing_source_eq os stan_file force w Hsrc).
       eexists _, _, []. rewrite app_nil_r. repeat split; try reflexivity; try (cbn; lia); congruence. }
  destruct (String.eqb (Path.suffix (resolve os stan_file)) ".stan") eqn:Hsuf.
  2: { apply String.eqb_neq in Hsuf.
       rewrite (compile_wrong_extension_eq os stan_file force w Hsrc Hsuf).
       eexists _, _, []. rewrite app_nil_r. repeat split; try reflexivity; try (cbn; lia); congruence. }
  apply String.eqb_eq in Hsuf.
  destruct (exists_ (fs w) (Path.child (find_makefile_dir os) "makefile")) eqn:Hmk.
  2: { rewrite (compile_missing_makefile_eq os stan_file force w Hsrc Hsuf Hmk).
       eexists _, _, []. rewrite app_nil_r. repeat split; try reflexivity; try (cbn; lia); congruence. }
  assert (Hv : valid_request os stan_file w) by (repeat split; assumption).
  destruct (negb force && fresh (fs w) (resolve os stan_file)) eqn:Hb.
  - apply andb_prop in Hb as [Hforce Hf]. destruct force; [discriminate Hforce|].
    unfold compile, bind at 1, get at 1. rewrite Hsrc, Hsuf, Hmk.
    cbn [negb String.eqb Ascii.eqb Bool.eqb].
    fold (artifact_path (resolve os stan_file)).
    unfold fresh in Hf. rewrite andb_true_l, Hf.
    unfold bind at 1, print at 1, emit, modify.
    match goal with
    | |- context [CompiledModel_init ?o ?p ?w0] =>
        destruct (CompiledModel_init_effect o p w0) as (r & Hinit & Hok); rewrite Hinit
    end.
    eexists r, _, _. split; [reflexivity|]. cbn [world_log log native].
    rewrite <- app_assoc. split; [reflexivity|].
    repeat split; try reflexivity; [cbn; lia|]. intros m Hm. apply (Hok m Hm).
  - rewrite (compile_builds os stan_file force w Hv Hb).
    destruct (build_outcome_events os stan_file w) as (after & Hlog & Hafter & Hnat & _).
    assert (Hok : forall m, fst (build_outcome os stan_file w) = Ok m -> StateEmpty m).
    { unfold build_outcome. destruct (subprocess_run _ _ _ _) as [[e0|rc out err] fs'];
        [intros m H; discriminate H|].
      destruct (negb (rc =? 0)); [intros m H; discriminate H|].
      destruct (negb (exists_ fs' _)); [intros m H; discriminate H|].
      match goal with
      | |- context [CompiledModel_init ?o ?p ?w0] =>
          destruct (CompiledModel_init_effect o p w0) as (r & Hinit & Hok); rewrite Hinit
      end.
      destruct r as [m0|e0]; intros m H; [|discriminate H].
      cbn in H. inversion H; subst. apply (Hok m eq_refl). }
    destruct (build_outcome os stan_file w) as [r w'] eqn:Ho. cbn [fst snd] in *.
    exists r, w', (announce os stan_file ++ RunProcess
                     ["make"; fst (make_target (find_makefile_dir os) (getcwd os)
                                     (resolve os stan_file))] (find_makefile_dir os) :: after)%list.
    split; [reflexivity|]. split; [exact Hlog|].
    destruct (run_filter_announce os stan_file) as [Hr Hn].
    rewrite !List.filter_app, Hr, Hn. cbn [List.filter is_native_call is_run_process app].
    split; [destruct Hafter as [->| ->]; reflexivity|].
    split; [destruct Hafter as [->| ->]; cbn; lia|].
    split; [exact Hnat|exact Hok].
Qed.

End ResolverMore.

(** ** Names and texts *)

Lemma to_int_not_nil (n : Z) : Z.to_int n <> Decimal.Pos Decimal.Nil /\ Z.to_int n <> Decimal.Neg Decimal.Nil.
Proof.
  split; intros H; pose proof (DecimalZ.of_to n) as Hn; rewrite H in Hn; cbn in Hn; subst n;
    discriminate H.
Qed.

(** X26. The text an integer is marshalled to parses back to that integer,
    so different integers are marshalled to different texts. *)
Theorem int_marshalling_is_lossless (a b : Z) :
  NilZero.int_of_string (_value_to_string (VInt a)) = Some (Z.to_int a)
  /\ (_value_to_string (VInt a) = _value_to_string (VInt b) -> a = b).
Proof.
  assert (Hparse : forall n, NilZero.int_of_string (Str.of_Z n) = Some (Z.to_int n)).
  { intros n. unfold Str.of_Z. destruct (to_int_not_nil n). apply NilZero.isi; assumption. }
  split; [apply Hparse|].
  cbn [_value_to_string is_bool py_str]. intros H.
  pose proof (Hparse a) as Ha. rewrite H, Hparse in Ha. inversion Ha as [Hab].
  rewrite <- (DecimalZ.of_to a), <- (DecimalZ.of_to b), Hab. reflexivity.
Qed.

Lemma substring_split (i : nat) (s : string) :
  (i <= String.length s)%nat ->
  String.substring 0 i s ++ String.substring i (String.length s - i) s = s.
Proof.
  revert s. induction i as [|i IH]; intros s Hle.
  - rewrite Nat.sub_0_r. cbn [String.substring].
    destruct s as [|a s]; [reflexivity|]. cbn [String.substring String.length append].
    change (String a (String.substring 0 (String.length s) s) = String a s). f_equal.
    clear. induction s as [|b s IH]; [reflexivity|]. cbn [String.substring String.length].
    f_equal. exact IH.
  - destruct s as [|a s]; [cbn in Hle; lia|]. cbn [String.length] in *.
    cbn [String.substring Nat.sub]. 
    change (String a (String.substring 0 i s ++ String.substring i (String.length s - i) s) = String a s).
    f_equal. apply IH. lia.
Qed.

Lemma rfind_lt c s i : Str.rfind c s = Some i -> (i < String.length s)%nat.
Proof.
  revert i. induction s as [|a s IH]; intros i H; [discriminate H|].
  cbn [Str.rfind] in H. cbn [String.length].
  destruct (Str.rfind c s) as [j|].
  - inversion H; subst. specialize (IH j eq_refl). lia.
  - destruct (Ascii.eqb a c); inversion H; subst. lia.
Qed.

Lemma stem_suffix (p : Path.t) : Path.stem p ++ Path.suffix p = Path.name p.
Proof.
  unfold Path.stem, Path.suffix, Path.suffix_index.
  destruct (Str.rfind "." (Path.name p)) as [i|] eqn:Hr.
  - destruct (Nat.ltb 0 i && Nat.ltb i (String.length (Path.name p) - 1))%bool.
    + apply substring_split. apply rfind_lt in Hr. lia.
    + clear. induction (Path.name p) as [|a s IH]; [reflexivity|].
      change (String a (s ++ "") = String a s). f_equal. exact IH.
  - clear. induction (Path.name p) as [|a s IH]; [reflexivity|].
    change (String a (s ++ "") = String a s). f_equal. exact IH.
Qed.

Lemma app_inv_head_str (a b c : string) : a ++ b = a ++ c -> b = c.
Proof.
  induction a as [|x a IH]; intros H; [exact H|].
  change (String x (a ++ b) = String x (a ++ c)) in H. inversion H. apply IH. assumption.
Qed.

(** X27. For a source named [stem.stan], the artifact is [stem_model.so]
    in the directory of the source, and it is never the source itself. *)
Theorem artifact_beside_source (p : Path.t) :
  Path.suffix p = ".stan" ->
  Path.name p = Path.stem p ++ ".stan"
  /\ Path.parent (artifact_path p) = Path.parent p
  /\ Path.name (artifact_path p) = Path.stem p ++ "_model.so"
  /\ artifact_path p <> p.
Proof.
  intros Hs. assert (Hn : Path.name p = Path.stem p ++ ".stan")
    by (rewrite <- Hs; symmetry; apply stem_suffix).
  assert (Hname : Path.name (artifact_path p) = Path.stem p ++ "_model.so")
    by (unfold artifact_path; apply name_child).
  split; [exact Hn|]. split; [|split; [exact Hname|]].
  - unfold artifact_path, Path.parent, Path.child. apply List.removelast_last.
  - intros Heq. rewrite Heq, Hn in Hname. apply app_inv_head_str in Hname. discriminate Hname.
Qed.

(** X28. The make target is always a relative path whose last component is
    the artifact name, and a warning is printed exactly when the source
    does not lie below the makefile directory. *)
Theorem make_target_shape (makefile_dir cwd stan_path : Path.t) :
  (exists dirs, fst (make_target makefile_dir cwd stan_path)
                = Path.rel_to_str (dirs ++ [artifact_name (Path.stem stan_path)])%list)
  /\ (snd (make_target makefile_dir cwd stan_path) = None
      <-> is_Some (Path.relative_to stan_path makefile_dir)).
Proof.
  unfold make_target.
  destruct (Path.relative_to stan_path makefile_dir) as [rel|].
  - cbn [fst snd]. split; [exists (Path.parent rel); reflexivity|].
    split; [intros _; eexists; reflexivity|reflexivity].
  - destruct (Path.relative_to stan_path cwd) as [rel|]; cbn [fst snd].
    + split; [exists (Path.parent rel); reflexivity|].
      split; [discriminate|intros [x H]; discriminate H].
    + split; [exists []; reflexivity|].
      split; [discriminate|intros [x H]; discriminate H].
Qed.

(** ** The further properties on the stub boundary *)

Lemma stub_fresh_consistent : consistent {| self := Stub.fresh; world := Stub.w0 |}.
Proof. split; [reflexivity|]. split; [reflexivity|]. intros h H. discriminate H. Defined.

Lemma session_script_keeps_single_live_handle_witness :
  consistent {| self := Stub.fresh; world := Stub.w0 |}
  /\ live (log (world (perform StubMore.script {| self := Stub.fresh; world := Stub.w0 |})))
     = held (self (perform StubMore.script {| self := Stub.fresh; world := Stub.w0 |}))
  /\ uses_live (log (world (perform StubMore.script {| self := Stub.fresh; world := Stub.w0 |}))) []
     = true.
Proof.
  split; [exact stub_fresh_consistent|].
  destruct (session_script_keeps_single_live_handle StubMore.script
              {| self := Stub.fresh; world := Stub.w0 |} stub_fresh_consistent)
    as (Hl & _ & Hu & _).
  split; [exact Hl|exact Hu].
Defined.

Lemma finalizer_releases_held_handle_witness :
  consistent {| self := Stub.fresh; world := Stub.w0 |}
  /\ live (log (world (snd (__del__
             (perform StubMore.script {| self := Stub.fresh; world := Stub.w0 |}))))) = [].
Proof.
  split; [exact stub_fresh_consistent|].
  apply (finalizer_releases_held_handle StubMore.script
           {| self := Stub.fresh; world := Stub.w0 |} stub_fresh_consistent).
Defined.

Lemma with_block_releases_witness :
  consistent {| self := Stub.fresh; world := Stub.w0 |}
  /\ fst (with_block (load_data (DataPath "bernoulli.data.json") 12345)
            {| self := Stub.fresh; world := Stub.w0 |})
     = fst (load_data (DataPath "bernoulli.data.json") 12345
              {| self := Stub.fresh; world := Stub.w0 |})
  /\ StateEmpty (self (snd (with_block (load_data (DataPath "bernoulli.data.json") 12345)
                              {| self := Stub.fresh; world := Stub.w0 |}))).
Proof.
  split; [exact stub_fresh_consistent|].
  destruct (with_block_releases (load_data (DataPath "bernoulli.data.json") 12345)
              {| self := Stub.fresh; world := Stub.w0 |}
              (load_data_consistent _ _) stub_fresh_consistent)
    as (Hr & He & _).
  split; [exact Hr|exact He].
Defined.

Lemma hmc_nuts_keeps_session_witness :
  _model_handle (StubMore.session StubMore.failing_lib (Some 1000)) = Some 1000
  /\ exists r status w',
       call (hmc_nuts [("warmup", VInt 100)])
         (StubMore.session StubMore.failing_lib (Some 1000)) Stub.w1
       = (r, StubMore.session StubMore.failing_lib (Some 1000), w')
       /\ log w' = (log Stub.w1 ++
                    [CallRunSamplers 1000
                       (fst (_kwargs_to_c_arrays [("warmup", VInt 100)]))
                       (snd (_kwargs_to_c_arrays [("warmup", VInt 100)]))
                       (Z.of_nat (List.length [("warmup", VInt 100)]))
                       Ctypes.buffer_capacity Ctypes.buffer_capacity status])%list
       /\ (status <> 0 -> exists e, r = Raise e).
Proof.
  split; [reflexivity|].
  apply (hmc_nuts_keeps_session (StubMore.session StubMore.failing_lib (Some 1000)) Stub.w1 1000).
  reflexivity.
Defined.

Lemma hmc_nuts_failure_text_witness :
  is_ascii "bad parameter" = true
  /\ exists w',
       call (hmc_nuts [("warmup", VInt 100)])
         (StubMore.session StubMore.failing_lib (Some 1000)) Stub.w1
       = (Raise (mkExn StoshError "Sampling failed: bad parameter"),
          StubMore.session StubMore.failing_lib (Some 1000), w').
Proof.
  split; [reflexivity|].
  apply (hmc_nuts_failure_text (StubMore.session StubMore.failing_lib (Some 1000)) Stub.w1 1000
           [("warmup", VInt 100)] 1 "" ("bad parameter" ++ Stub.nul) 1%nat "bad parameter").
  - reflexivity.
  - reflexivity.
  - discriminate.
  - vm_compute. reflexivity.
  - reflexivity.
Defined.

Lemma hmc_nuts_passes_parameters_in_order_witness :
  Dict.wf example_parameters
  /\ exists r status w',
       call (hmc_nuts example_parameters) Stub.loaded Stub.w1 = (r, Stub.loaded, w')
       /\ log w' = (log Stub.w1 ++
                    [CallRunSamplers 1000
                       (Some (List.map (fun kv => Some (fst kv)) example_parameters))
                       (Some (List.map (fun kv => Some (_value_to_string (snd kv)))
                                example_parameters))
                       (Z.of_nat (List.length example_parameters))
                       Ctypes.buffer_capacity Ctypes.buffer_capacity status])%list.
Proof.
  assert (Hwf : Dict.wf example_parameters).
  { unfold Dict.wf. cbn. repeat constructor; cbn; intuition discriminate. }
  split; [exact Hwf|].
  apply (hmc_nuts_passes_parameters_in_order Stub.loaded Stub.w1 1000 example_parameters).
  - reflexivity.
  - exact Hwf.
  - discriminate.
Defined.

Lemma marshal_parallel_arrays_witness :
  Dict.wf example_parameters
  /\ exists keys values,
       _kwargs_to_c_arrays example_parameters = (Some keys, Some values)
       /\ List.length keys = List.length example_parameters
       /\ List.length values = List.length example_parameters.
Proof.
  assert (Hwf : Dict.wf example_parameters).
  { unfold Dict.wf. cbn. repeat constructor; cbn; intuition discriminate. }
  split; [exact Hwf|].
  destruct (marshal_parallel_arrays example_parameters Hwf) as (keys & values & H1 & H2 & H3 & _).
  - discriminate.
  - exists keys, values. split; [exact H1|]. split; [exact H2|exact H3].
Defined.

Lemma load_data_succeeds_iff_nonnull_witness :
  stosh_load_model (_lib Stub.fresh) (Utf8.encode (data_path (DataPath "bernoulli.data.json")))
    (Ctypes.c_uint 12345) Ctypes.buffer_capacity (released Stub.fresh Stub.w0)
  = ((1000, ""), 1%nat)
  /\ exists r obj' w',
       call (load_data (DataPath "bernoulli.data.json") 12345) Stub.fresh Stub.w0 = (r, obj', w')
       /\ (r = Ok tt <-> 1000 <> 0)
       /\ _model_handle obj' = (if 1000 =? 0 then None else Some 1000)
       /\ native w' = 1%nat.
Proof.
  split; [reflexivity|].
  apply (load_data_succeeds_iff_nonnull Stub.fresh Stub.w0 (DataPath "bernoulli.data.json")
           12345 1000 "" 1%nat).
  - intros d H. discriminate H.
  - reflexivity.
Defined.

Lemma load_data_failure_text_verbatim_witness :
  is_ascii "seed required" = true
  /\ exists w',
       call (load_data (DataPath "noseed.json") 7) Stub.loaded Stub.w1
       = (Raise (DataLoadFailed "seed required"), with_handle Stub.loaded None, w')
       /\ (String.length (exn_str (DataLoadFailed "seed required")) <= 21 + 1024)%nat.
Proof.
  split; [reflexivity|].
  apply (load_data_failure_text_verbatim Stub.loaded Stub.w1 (DataPath "noseed.json") 7
           ("seed required" ++ Stub.nul) 1%nat "seed required").
  - intros d H. discriminate H.
  - reflexivity.
  - vm_compute. reflexivity.
  - reflexivity.
Defined.

Lemma load_data_undecodable_error_text_witness :
  Utf8.decode (Ctypes.value Ctypes.buffer_capacity (String (ascii_of_nat 255) EmptyString))
  = inr "'utf-8' codec can't decode byte 0xff in position 0: invalid start byte"
  /\ exists w',
       call (load_data DataNone 1) (StubMore.session StubMore.garbling_lib None) Stub.w0
       = (Raise (mkExn UnicodeDecodeError
                   "'utf-8' codec can't decode byte 0xff in position 0: invalid start byte"),
          with_handle (StubMore.session StubMore.garbling_lib None) None, w')
       /\ catches StoshError UnicodeDecodeError = false.
Proof.
  split; [vm_compute; reflexivity|].
  apply (load_data_undecodable_error_text (StubMore.session StubMore.garbling_lib None) Stub.w0
           DataNone 1 (String (ascii_of_nat 255) EmptyString) 0%nat).
  - intros d H. discriminate H.
  - reflexivity.
  - vm_compute. reflexivity.
Defined.

Lemma compile_rejects_missing_source_witness :
  exists_ (fs (Stub.world Stub.fs_source)) (resolve (Stub.os ["stan"]) "nonexistent.stan") = false
  /\ compile (Stub.os ["stan"]) "nonexistent.stan" false (Stub.world Stub.fs_source)
     = (Raise (mkExn StoshError "Stan file does not exist: nonexistent.stan"),
        Stub.world Stub.fs_source).
Proof.
  split; [vm_compute; reflexivity|].
  apply (compile_rejects_missing_source (Stub.os ["stan"]) "nonexistent.stan" false
           (Stub.world Stub.fs_source)).
  vm_compute. reflexivity.
Defined.

Lemma compile_rejects_wrong_extension_witness :
  Path.suffix (resolve (Stub.os ["stan"]) "makefile") <> ".stan"
  /\ compile (Stub.os ["stan"]) "makefile" false (Stub.world Stub.fs_source)
     = (Raise (mkExn StoshError "File must have .stan extension: makefile"),
        Stub.world Stub.fs_source).
Proof.
  split; [vm_compute; discriminate|].
  apply (compile_rejects_wrong_extension (Stub.os ["stan"]) "makefile" false
           (Stub.world Stub.fs_source)).
  - vm_compute. reflexivity.
  - vm_compute. discriminate.
Defined.

Lemma compile_requires_makefile_witness :
  exists_ (fs (Stub.world (<[Stub.so_file := 25]> (<[Stub.stan_file := 20]> ∅))))
    (Path.child (find_makefile_dir (Stub.os ["stan"])) "makefile") = false
  /\ compile (Stub.os ["stan"]) "examples/bernoulli.stan" false
       (Stub.world (<[Stub.so_file := 25]> (<[Stub.stan_file := 20]> ∅)))
     = (Raise (mkExn StoshError "Makefile not found at: /stan/makefile"),
        Stub.world (<[Stub.so_file := 25]> (<[Stub.stan_file := 20]> ∅))).
Proof.
  split; [vm_compute; reflexivity|].
  apply (compile_requires_makefile (Stub.os ["stan"]) "examples/bernoulli.stan" false
           (Stub.world (<[Stub.so_file := 25]> (<[Stub.stan_file := 20]> ∅))));
    vm_compute; reflexivity.
Defined.

Lemma stub_valid_request (fsys : FS) :
  fsys !! Stub.stan_file = Some 20 -> fsys !! Stub.makefile = Some 1 ->
  valid_request (Stub.os ["stan"]) "examples/bernoulli.stan" (Stub.world fsys).
Proof.
  intros Hs Hm. unfold valid_request, exists_.
  change (resolve (Stub.os ["stan"]) "examples/bernoulli.stan") with Stub.stan_file.
  change (Path.child (find_makefile_dir (Stub.os ["stan"])) "makefile") with Stub.makefile.
  cbn [fs Stub.world]. rewrite Hs, Hm. repeat split.
Defined.

Lemma compile_force_rebuilds_witness :
  valid_request (Stub.os ["stan"]) "examples/bernoulli.stan" (Stub.world Stub.fs_fresh)
  /\ fresh Stub.fs_fresh Stub.stan_file = true
  /\ exists r w' after,
       compile (Stub.os ["stan"]) "examples/bernoulli.stan" true (Stub.world Stub.fs_fresh)
       = (r, w')
       /\ log w' = (log (Stub.world Stub.fs_fresh)
                    ++ announce (Stub.os ["stan"]) "examples/bernoulli.stan"
                    ++ RunProcess ["make"; "examples/bernoulli_model.so"] ["stan"] :: after)%list.
Proof.
  assert (Hv : valid_request (Stub.os ["stan"]) "examples/bernoulli.stan"
                 (Stub.world Stub.fs_fresh))
    by (apply stub_valid_request; vm_compute; reflexivity).
  split; [exact Hv|]. split; [vm_compute; reflexivity|].
  destruct (compile_force_rebuilds (Stub.os ["stan"]) "examples/bernoulli.stan"
              (Stub.world Stub.fs_fresh) Hv) as (r & w' & after & Hc & Hl & _).
  exists r, w', after. split; [exact Hc|exact Hl].
Defined.

Lemma compile_rebuilds_unless_strictly_newer_witness :
  (<[Stub.so_file := 20]> Stub.fs_source : FS) !! Stub.so_file = Some 20
  /\ exists r w' after,
       compile (Stub.os ["stan"]) "examples/bernoulli.stan" false
         (Stub.world (<[Stub.so_file := 20]> Stub.fs_source))
       = (r, w')
       /\ log w' = (log (Stub.world (<[Stub.so_file := 20]> Stub.fs_source))
                    ++ announce (Stub.os ["stan"]) "examples/bernoulli.stan"
                    ++ RunProcess ["make"; "examples/bernoulli_model.so"] ["stan"] :: after)%list.
Proof.
  split; [vm_compute; reflexivity|].
  apply (compile_rebuilds_unless_strictly_newer (Stub.os ["stan"]) "examples/bernoulli.stan"
           (Stub.world (<[Stub.so_file := 20]> Stub.fs_source)) 20 20).
  - apply stub_valid_request; vm_compute; reflexivity.
  - vm_compute. reflexivity.
  - vm_compute. reflexivity.
  - lia.
Defined.

Lemma stub_valid_request_with (mk : list string -> Path.t -> FS -> @RunResult * FS)
    (dl : string -> FS -> string + @NativeLib nat) (fsys : FS) :
  fsys !! Stub.stan_file = Some 20 -> fsys !! Stub.makefile = Some 1 ->
  valid_request (StubMore.os_with mk dl ["stan"]) "examples/bernoulli.stan" (Stub.world fsys).
Proof.
  intros Hs Hm. unfold valid_request, exists_.
  change (resolve (StubMore.os_with mk dl ["stan"]) "examples/bernoulli.stan") with Stub.stan_file.
  change (Path.child (find_makefile_dir (StubMore.os_with mk dl ["stan"])) "makefile")
    with Stub.makefile.
  cbn [fs Stub.world]. rewrite Hs, Hm. repeat split.
Defined.

Lemma compile_artifact_missing_after_build_witness :
  exists_ Stub.fs_source Stub.so_file = false
  /\ exists w',
       compile (StubMore.os_with StubMore.lazy_make (CDLL (Stub.os ["stan"])) ["stan"])
         "examples/bernoulli.stan" false (Stub.world Stub.fs_source)
       = (Raise (mkExn StoshError
                   ("Compilation error: Compilation succeeded but output file not found: "
                    ++ "/stan/examples/bernoulli_model.so")), w').
Proof.
  split; [vm_compute; reflexivity|].
  destruct (compile_artifact_missing_after_build
              (StubMore.os_with StubMore.lazy_make (CDLL (Stub.os ["stan"])) ["stan"])
              "examples/bernoulli.stan" false (Stub.world Stub.fs_source)
              "make: Nothing to be done" "" Stub.fs_source) as (w' & Hc & _).
  - apply stub_valid_request_with; vm_compute; reflexivity.
  - vm_compute. reflexivity.
  - reflexivity.
  - vm_compute. reflexivity.
  - exists w'. exact Hc.
Defined.

Lemma compile_make_not_found_witness :
  catches FileNotFoundError FileNotFoundError = true
  /\ exists w',
       compile (StubMore.os_with StubMore.absent_make (CDLL (Stub.os ["stan"])) ["stan"])
         "examples/bernoulli.stan" false (Stub.world Stub.fs_source)
       = (Raise (mkExn StoshError
                   "Make command not found. Ensure GNU make is installed and in PATH."), w').
Proof.
  split; [reflexivity|].
  apply (compile_make_not_found
           (StubMore.os_with StubMore.absent_make (CDLL (Stub.os ["stan"])) ["stan"])
           "examples/bernoulli.stan" false (Stub.world Stub.fs_source)
           (mkExn FileNotFoundError "[Errno 2] No such file or directory: 'make'")
           Stub.fs_source).
  - apply stub_valid_request_with; vm_compute; reflexivity.
  - vm_compute. reflexivity.
  - reflexivity.
Defined.

Lemma compile_build_success_witness :
  exists_ (<[Stub.so_file := 30]> Stub.fs_source) Stub.so_file = true
  /\ exists w',
       compile (Stub.os ["stan"]) "examples/bernoulli.stan" false (Stub.world Stub.fs_source)
       = (Ok {| _so_path := "/stan/examples/bernoulli_model.so";
                _lib := Stub.lib; _model_handle := None |}, w')
       /\ fs w' = <[Stub.so_file := 30]> Stub.fs_source
       /\ native w' = 0%nat.
Proof.
  split; [vm_compute; reflexivity|].
  apply (compile_build_success (Stub.os ["stan"]) "examples/bernoulli.stan" false
           (Stub.world Stub.fs_source) "built" "" (<[Stub.so_file := 30]> Stub.fs_source) Stub.lib).
  - apply stub_valid_request; vm_compute; reflexivity.
  - vm_compute. reflexivity.
  - reflexivity.
  - vm_compute. reflexivity.
  - vm_compute. reflexivity.
  - intros sym _. reflexivity.
Defined.


Lemma compile_reuse_lets_attribute_error_escape_witness :
  fresh Stub.fs_fresh Stub.stan_file = true
  /\ exists msg' w',
       compile (StubMore.os_with Stub.make (fun _ _ => inr StubMore.broken_lib) ["stan"])
         "examples/bernoulli.stan" false (Stub.world Stub.fs_fresh)
       = (Raise (mkExn AttributeError msg'), w')
       /\ catches StoshError AttributeError = false.
Proof.
  split; [vm_compute; reflexivity|].
  apply (compile_reuse_lets_attribute_error_escape
           (StubMore.os_with Stub.make (fun _ _ => inr StubMore.broken_lib) ["stan"])
           "examples/bernoulli.stan" (Stub.world Stub.fs_fresh) StubMore.broken_lib
           "stosh_run_samplers" "undefined symbol: stosh_run_samplers").
  - apply stub_valid_request_with; vm_compute; reflexivity.
  - vm_compute. reflexivity.
  - reflexivity.
  - cbn. auto.
  - reflexivity.
Defined.

Lemma library_load_failure_is_stosh_error_witness :
  CDLL (Stub.os ["stan"]) "/stan/examples/missing_model.so" (fs (Stub.world Stub.fs_source))
  = inl "/stan/examples/missing_model.so: cannot open shared object file: No such file or directory"
  /\ CompiledModel_init (Stub.os ["stan"]) "/stan/examples/missing_model.so"
       (Stub.world Stub.fs_source)
     = (Raise (mkExn StoshError
                 ("Failed to load compiled model: "
                  ++ "/stan/examples/missing_model.so: cannot open shared object file: No such file or directory")),
        world_log [LoadLibrary "/stan/examples/missing_model.so"] (Stub.world Stub.fs_source)).
Proof.
  split; [vm_compute; reflexivity|].
  apply (library_load_failure_is_stosh_error (Stub.os ["stan"]) "/stan/examples/missing_model.so"
           (Stub.world Stub.fs_source)).
  vm_compute. reflexivity.
Defined.

Lemma artifact_beside_source_witness :
  Path.suffix Stub.stan_file = ".stan"
  /\ Path.name Stub.stan_file = Path.stem Stub.stan_file ++ ".stan"
  /\ Path.parent (artifact_path Stub.stan_file) = Path.parent Stub.stan_file
  /\ Path.name (artifact_path Stub.stan_file) = Path.stem Stub.stan_file ++ "_model.so"
  /\ artifact_path Stub.stan_file <> Stub.stan_file.
Proof.
  split; [vm_compute; reflexivity|].
  apply (artifact_beside_source Stub.stan_file). vm_compute. reflexivity.
Defined.
